(** * Atticus Chat API: a shallow embedding of the serverless handlers

    The development follows two JavaScript modules of the repository:
    - [api/profile.js]  (the profile intake endpoint),
    - [api/claude.js]   (authentication, tier and usage limiter, system
                         prompt composer and chat proxy),
    and states the properties of the specification over that embedding.

    JavaScript strings are sequences of UTF-16 code units, JavaScript values
    are an inductive type, exceptions are an explicit completion type, and
    the calls to the identity provider and to the LLM provider are recorded
    in a trace threaded through a small state-and-exception monad. *)

From Stdlib Require Import String Ascii ZArith NArith Lia Bool List.
From Stdlib Require Import Floats.SpecFloat DecimalString.
Import ListNotations.

Set Warnings "-register-all".

Local Open Scope list_scope.

(* ===================================================================== *)
(** ** JavaScript strings *)
(* ===================================================================== *)

(** A string is its sequence of UTF-16 code units; [length] is the
    JavaScript [.length]. *)
Definition jsstring := list N.

(** Code units of an ASCII literal. *)
Definition lit (s : string) : jsstring :=
  map N_of_ascii (list_ascii_of_string s).

(** Code units of a literal of the UTF-8 source text (characters of the
    Basic Multilingual Plane take one unit, the others a surrogate pair). *)
Fixpoint utf8_units (bs : list N) : jsstring :=
  match bs with
  | [] => []
  | b0 :: r0 =>
    if (b0 <? 128)%N then b0 :: utf8_units r0
    else match r0 with
    | [] => [65533%N]
    | b1 :: r1 =>
      if (b0 <? 224)%N then
        ((b0 mod 32) * 64 + b1 mod 64)%N :: utf8_units r1
      else match r1 with
      | [] => [65533%N]
      | b2 :: r2 =>
        if (b0 <? 240)%N then
          ((b0 mod 16) * 4096 + (b1 mod 64) * 64 + b2 mod 64)%N :: utf8_units r2
        else match r2 with
        | [] => [65533%N]
        | b3 :: r3 =>
          let cp := ((b0 mod 8) * 262144 + (b1 mod 64) * 4096
                      + (b2 mod 64) * 64 + b3 mod 64)%N in
          let v := (cp - 65536)%N in
          (55296 + v / 1024)%N :: (56320 + v mod 1024)%N :: utf8_units r3
        end
      end
    end
  end.

Definition js (s : string) : jsstring := utf8_units (lit s).

Arguments lit s%_string.
Arguments js s%_string.

Definition jseqb (a b : jsstring) : bool :=
  if list_eq_dec N.eq_dec a b then true else false.

(** [String.prototype.startsWith]. *)
Fixpoint startsWith (s p : jsstring) : bool :=
  match p, s with
  | [], _ => true
  | _ :: _, [] => false
  | c :: p', d :: s' => (c =? d)%N && startsWith s' p'
  end.

(** [String.prototype.endsWith]. *)
Definition endsWith (s p : jsstring) : bool :=
  startsWith (rev s) (rev p).

(** [String.prototype.includes]. *)
Fixpoint includes (s p : jsstring) : bool :=
  startsWith s p ||
  match s with
  | [] => false
  | _ :: s' => includes s' p
  end.

(** [String.prototype.slice(start, end)], with the relative-index rules
    for negative arguments. *)
Definition rel_index (len i : Z) : Z :=
  if (i <? 0)%Z then Z.max (len + i) 0 else Z.min i len.

Definition slice (s : jsstring) (start stop : Z) : jsstring :=
  let len := Z.of_nat (length s) in
  let from := rel_index len start in
  let to := rel_index len stop in
  firstn (Z.to_nat (to - from)) (skipn (Z.to_nat from) s).

(** [s.slice(start)]. *)
Definition slice_from (s : jsstring) (start : Z) : jsstring :=
  slice s start (Z.of_nat (length s)).

(** [String.prototype.split] with a one-unit separator. *)
Fixpoint split_on (sep : N) (s : jsstring) (cur : jsstring) : list jsstring :=
  match s with
  | [] => [rev cur]
  | c :: s' =>
    if (c =? sep)%N then rev cur :: split_on sep s' []
    else split_on sep s' (c :: cur)
  end.

Definition split (s : jsstring) (sep : N) : list jsstring := split_on sep s [].

Definition colon : N := 58%N.

(** Decimal digits of a natural number (array indices, BigInt). *)
Definition decimal (n : N) : jsstring :=
  lit (NilZero.string_of_uint (N.to_uint n)).

Fixpoint join (sep : jsstring) (l : list jsstring) : jsstring :=
  match l with
  | [] => []
  | [x] => x
  | x :: r => x ++ sep ++ join sep r
  end.

(* ===================================================================== *)
(** ** JavaScript values *)
(* ===================================================================== *)

(** Numbers are IEEE-754 binary64 values. *)
Definition number := spec_float.

Definition num_of_Z (z : Z) : number := binary_normalize 53 1024 z 0 false.

(** [a >= b] on numbers: false as soon as one side is NaN. *)
Definition num_ge (a b : number) : bool :=
  match SFcompare a b with
  | Some Lt | None => false
  | Some _ => true
  end.

(** The values a handler can meet: what [JSON.parse] produces, plus
    [undefined] and BigInt.  The properties of an object are listed in
    own-property enumeration order. *)
Inductive value : Type :=
| VUndefined
| VNull
| VBool (b : bool)
| VNumber (x : number)
| VBigInt (z : Z)
| VString (s : jsstring)
| VArray (elems : list value)
| VObject (props : list (jsstring * value)).

(** ToBoolean. *)
Definition truthy (v : value) : bool :=
  match v with
  | VUndefined | VNull => false
  | VBool b => b
  | VNumber (S754_zero _) | VNumber S754_nan => false
  | VNumber _ => true
  | VBigInt z => negb (z =? 0)%Z
  | VString s => match s with [] => false | _ => true end
  | VArray _ | VObject _ => true
  end.

(** The [typeof] operator. *)
Definition typeof (v : value) : jsstring :=
  match v with
  | VUndefined => lit "undefined"
  | VNull | VArray _ | VObject _ => lit "object"
  | VBool _ => lit "boolean"
  | VNumber _ => lit "number"
  | VBigInt _ => lit "bigint"
  | VString _ => lit "string"
  end.

(** [a || b]. *)
Definition js_or (a b : value) : value := if truthy a then a else b.

(** Exceptions: a computation completes normally or throws an error, of
    which the handlers only ever read the [message]. *)
Inductive completion (A : Type) : Type :=
| Normal (a : A)
| Throw (message : jsstring).
Arguments Normal {A} a.
Arguments Throw {A} message.

Definition cbind {A B} (c : completion A) (f : A -> completion B) : completion B :=
  match c with
  | Normal a => f a
  | Throw m => Throw m
  end.

(** Messages of the TypeErrors raised by the engine (V8 wording). *)
Definition TypeError_keys : jsstring :=
  lit "Cannot convert undefined or null to object".
Definition TypeError_primitive : jsstring :=
  lit "Cannot convert object to primitive value".
Definition TypeError_bigint : jsstring :=
  lit "Do not know how to serialize a BigInt".
Definition TypeError_read (base what : string) : jsstring :=
  lit "Cannot read properties of " ++ lit base ++ lit " (reading '" ++ lit what ++ lit "')".

(** Evaluate a list of completions left to right. *)
Fixpoint csequence {A} (l : list (completion A)) : completion (list A) :=
  match l with
  | [] => Normal []
  | c :: r =>
    cbind c (fun a => cbind (csequence r) (fun ar => Normal (a :: ar)))
  end.

(** *** Property access *)

Fixpoint assoc (k : jsstring) (ps : list (jsstring * value)) : option value :=
  match ps with
  | [] => None
  | (k', v) :: r => if jseqb k k' then Some v else assoc k r
  end.

(** [o[k]] for a key [k] that no prototype defines ([tier], [betaAccess],
    [messages], ...): the own property of an object, else [undefined]. *)
Definition get_prop (o : value) (k : jsstring) : value :=
  match o with
  | VObject ps => match assoc k ps with Some v => v | None => VUndefined end
  | _ => VUndefined
  end.

(** [o.k]. *)
Definition get_field (o : value) (k : string) : value := get_prop o (lit k).
Arguments get_field o k%_string.

(** CreateDataProperty on an object under construction: overwrite in place
    or append.  The callers add the keys in the enumeration order of their
    source, integer-like keys first, so that appending keeps that order. *)
Fixpoint obj_define (ps : list (jsstring * value)) (k : jsstring) (v : value)
  : list (jsstring * value) :=
  match ps with
  | [] => [(k, v)]
  | (k', v') :: r =>
    if jseqb k k' then (k, v) :: r else (k', v') :: obj_define r k v
  end.

(** The assignment [a[k] = v] on an ordinary object: as [obj_define], but
    the key [__proto__] reaches the accessor of [Object.prototype] and
    creates no own property. *)
Definition obj_set (ps : list (jsstring * value)) (k : jsstring) (v : value)
  : list (jsstring * value) :=
  if jseqb k (lit "__proto__") then ps else obj_define ps k v.

Fixpoint indexed {A} (i : N) (l : list A) : list (jsstring * A) :=
  match l with
  | [] => []
  | x :: r => (decimal i, x) :: indexed (N.succ i) r
  end.

(** Own enumerable string-keyed properties, in enumeration order
    (EnumerableOwnProperties); [undefined] and [null] have none and make
    [Object.keys] throw. *)
Definition own_entries (v : value) : completion (list (jsstring * value)) :=
  match v with
  | VUndefined | VNull => Throw TypeError_keys
  | VBool _ | VNumber _ | VBigInt _ => Normal []
  | VString s => Normal (indexed 0 (map (fun c => VString [c]) s))
  | VArray l => Normal (indexed 0 l)
  | VObject ps => Normal ps
  end.

(** [Object.keys]. *)
Definition Object_keys (v : value) : completion (list jsstring) :=
  cbind (own_entries v) (fun es => Normal (map fst es)).

(** [obj[k]] for an own key [k] of [obj]. *)
Definition get_own (v : value) (k : jsstring) : value :=
  match own_entries v with
  | Normal es => match assoc k es with Some x => x | None => VUndefined end
  | Throw _ => VUndefined
  end.

(* ===================================================================== *)
(** ** Conversions and JSON serialization *)
(* ===================================================================== *)

Definition nl : jsstring := [10%N].
Definition dquote : jsstring := [34%N].

Definition hex_digit (n : N) : N :=
  if (n <? 10)%N then (48 + n)%N else (87 + n)%N.

(** The six-unit escape [\uXXXX], lower-case hexadecimal. *)
Definition unicode_escape (c : N) : jsstring :=
  lit "\u" ++ [hex_digit (c / 4096 mod 16); hex_digit (c / 256 mod 16);
               hex_digit (c / 16 mod 16); hex_digit (c mod 16)]%N.

Definition is_lead (c : N) : bool := (55296 <=? c)%N && (c <=? 56319)%N.
Definition is_trail (c : N) : bool := (56320 <=? c)%N && (c <=? 57343)%N.

Definition escape_unit (c : N) : jsstring :=
  if (c =? 8)%N then lit "\b"
  else if (c =? 9)%N then lit "\t"
  else if (c =? 10)%N then lit "\n"
  else if (c =? 12)%N then lit "\f"
  else if (c =? 13)%N then lit "\r"
  else if (c =? 34)%N then 92%N :: dquote
  else if (c =? 92)%N then lit "\\"
  else if (c <? 32)%N then unicode_escape c
  else [c].

Fixpoint quote_units (s : jsstring) : jsstring :=
  match s with
  | [] => []
  | c :: r =>
    if is_lead c then
      match r with
      | d :: r' =>
        if is_trail d then c :: d :: quote_units r'
        else unicode_escape c ++ quote_units r
      | [] => unicode_escape c
      end
    else if is_trail c then unicode_escape c ++ quote_units r
    else escape_unit c ++ quote_units r
  end.

(** QuoteJSONString. *)
Definition QuoteJSONString (s : jsstring) : jsstring :=
  dquote ++ quote_units s ++ dquote.

Definition bigint_toString (z : Z) : jsstring :=
  if (z <? 0)%Z then lit "-" ++ decimal (Z.to_N (- z)) else decimal (Z.to_N z).

Definition is_finite (x : number) : bool :=
  match x with
  | S754_zero _ | S754_finite _ _ _ => true
  | S754_infinity _ | S754_nan => false
  end.

(** The members of a serialized object: a property whose value serializes
    to [undefined] is left out. *)
Fixpoint members (parts : list (jsstring * option jsstring)) : list jsstring :=
  match parts with
  | [] => []
  | (k, Some t) :: r => (QuoteJSONString k ++ lit ":" ++ t) :: members r
  | (_, None) :: r => members r
  end.

Definition or_null (p : option jsstring) : jsstring :=
  match p with
  | Some t => t
  | None => lit "null"
  end.

Section Host.

(** Number::toString(x, 10) of the host: the shortest decimal rendering of
    a binary64 value. *)
Variable Number_toString : number -> jsstring.

(** ToString.  A parsed JSON object has no callable own property: one that
    carries its own [toString] key has no usable conversion method left
    and the conversion throws a TypeError. *)
Fixpoint ToString (v : value) : completion jsstring :=
  match v with
  | VUndefined => Normal (lit "undefined")
  | VNull => Normal (lit "null")
  | VBool b => Normal (if b then lit "true" else lit "false")
  | VNumber x => Normal (Number_toString x)
  | VBigInt z => Normal (bigint_toString z)
  | VString s => Normal s
  | VArray l =>
    cbind (csequence (map (fun e =>
             match e with
             | VUndefined | VNull => Normal []
             | _ => ToString e
             end) l))
          (fun ss => Normal (join (lit ",") ss))
  | VObject ps =>
    match assoc (lit "toString") ps with
    | Some _ => Throw TypeError_primitive
    | None => Normal (lit "[object Object]")
    end
  end.

(** SerializeJSONProperty, without replacer and without indentation.  The
    result is [None] for JavaScript's [undefined]; a BigInt throws. *)
Fixpoint SerializeJSONProperty (v : value) : completion (option jsstring) :=
  match v with
  | VUndefined => Normal None
  | VNull => Normal (Some (lit "null"))
  | VBool b => Normal (Some (if b then lit "true" else lit "false"))
  | VNumber x =>
    Normal (Some (if is_finite x then Number_toString x else lit "null"))
  | VBigInt _ => Throw TypeError_bigint
  | VString s => Normal (Some (QuoteJSONString s))
  | VArray l =>
    cbind (csequence (map SerializeJSONProperty l))
          (fun parts =>
             Normal (Some (lit "[" ++ join (lit ",") (map or_null parts) ++ lit "]")))
  | VObject ps =>
    cbind (csequence (map (fun kv =>
             cbind (SerializeJSONProperty (snd kv))
                   (fun p => Normal (fst kv, p))) ps))
          (fun parts =>
             Normal (Some (lit "{" ++ join (lit ",") (members parts) ++ lit "}")))
  end.

(** [JSON.stringify(v)]. *)
Definition JSON_stringify (v : value) : completion (option jsstring) :=
  SerializeJSONProperty v.

(** [s.length] on the result of [JSON.stringify]: a TypeError on
    [undefined]. *)
Definition the_string (s : option jsstring) : completion jsstring :=
  match s with
  | Some t => Normal t
  | None => Throw (TypeError_read "undefined" "length")
  end.

End Host.

(* ===================================================================== *)
(** ** HTTP requests and replies *)
(* ===================================================================== *)

(** What a handler reads of [req]: the method, the [authorization] header
    and the parsed body ([undefined] when there is none). *)
Record Request : Type := {
  method : jsstring;
  authorization : option jsstring;
  body : value
}.

(** What a handler leaves in [res]: the status, the headers set and the
    object given to [res.json] ([None] after [res.end()]). *)
Record Reply : Type := {
  status : Z;
  headers : list (jsstring * value);
  payload : option value
}.

Definition header (k v : string) : jsstring * value := (lit k, VString (lit v)).
Arguments header (k v)%_string.

Definition field (k : string) (v : value) : jsstring * value := (lit k, v).
Arguments field k%_string v.

Definition str (s : string) : value := VString (lit s).
Arguments str s%_string.

(* ===================================================================== *)
(** ** [api/profile.js] *)
(* ===================================================================== *)

Module Profile.
Section Host.

Variable Number_toString : number -> jsstring.

(** [new Date().toISOString()] at the time of the request. *)
Variable now_iso : jsstring.

Definition cors : list (jsstring * value) :=
  [ header "Access-Control-Allow-Origin" "*";
    header "Access-Control-Allow-Methods" "GET, POST, OPTIONS";
    header "Access-Control-Allow-Headers" "Content-Type, X-API-Key" ].

Definition json_reply (code : Z) (o : list (jsstring * value)) : Reply :=
  {| status := code; headers := cors; payload := Some (VObject o) |}.

Definition handler (req : Request) : Reply :=
  if jseqb (method req) (lit "OPTIONS") then
    {| status := 200; headers := cors; payload := None |}
  else if negb (jseqb (method req) (lit "POST")) then
    json_reply 405 [ field "error" (str "Method not allowed") ]
  else
    match
      (let profile := js_or (body req) (VObject []) in
       if negb (truthy profile) || negb (jseqb (typeof profile) (lit "object"))
       then Normal (json_reply 400 [ field "error" (str "Invalid profile payload") ])
       else
         (* the argument of console.log *)
         cbind (JSON_stringify Number_toString profile) (fun _ =>
         Normal (json_reply 200 [ field "ok" (VBool true);
                                  field "receivedAt" (VString now_iso) ])))
    with
    | Normal r => r
    | Throw m =>
      json_reply 500 [ field "error" (str "Internal Server Error");
                       field "message" (VString m) ]
    end.

End Host.

(** The two replies to a POST that the properties name. *)
Definition acknowledged (now_iso : jsstring) : Reply :=
  json_reply 200 [ field "ok" (VBool true);
                   field "receivedAt" (VString now_iso) ].

Definition invalid_payload : Reply :=
  json_reply 400 [ field "error" (str "Invalid profile payload") ].

End Profile.

(* ===================================================================== *)
(** ** [api/claude.js] *)
(* ===================================================================== *)

Module Claude.

(** *** The identity provider and the LLM provider *)

(** A user record of the identity provider, as far as the module reads
    it.  [primaryEmailAddress] holds the [emailAddress] of the primary
    address when there is one. *)
Record User : Type := {
  id : jsstring;
  firstName : option jsstring;
  primaryEmailAddress : option jsstring;
  publicMetadata : value;
  privateMetadata : value
}.

Record Session : Type := { userId : jsstring }.

(** The verified claims of a token; an empty [sub] is a missing subject. *)
Record Claims : Type := { sub : jsstring }.

(** The client of the identity provider.  A lookup returns a record, a
    falsy value ([None]) or throws. *)
Record Clerk : Type := {
  sessions_getSession : jsstring -> completion (option Session);
  users_getUser : jsstring -> completion (option User);
  verifyToken : jsstring -> completion (option Claims)
}.

(** The request sent by [fetch] and the response received.  [resp_text]
    is the body as [resp.text()] reads it and [resp_json] what
    [resp.json()] makes of it. *)
Record FetchInit : Type := {
  url : jsstring;
  fetch_method : jsstring;
  fetch_headers : list (jsstring * jsstring);
  fetch_body : option jsstring
}.

Record Response : Type := {
  resp_status : Z;
  resp_text : jsstring;
  resp_json : completion value
}.

(** [resp.ok]: the status is in the range 200-299. *)
Definition ok (r : Response) : bool :=
  (200 <=? resp_status r)%Z && (resp_status r <=? 299)%Z.

(** The world of one invocation: the two providers, the environment
    variables and the clock. *)
Record Env : Type := {
  clerkClient : Clerk;
  fetch : FetchInit -> completion Response;
  CLAUDE_API_KEY : option jsstring;
  NODE_ENV : option jsstring;
  (** [new Date().setHours(24, 0, 0, 0)] *)
  next_midnight : number
}.

(** The calls made to the providers, in order. *)
Inductive Call : Type :=
| GetSession (token : jsstring)
| GetUser (userId : jsstring)
| VerifyToken (token : jsstring)
| Fetch (init : FetchInit).

(** *** CORS *)

(** The second declaration of [applyCors] is the one in force. *)
Definition cors : list (jsstring * value) :=
  [ header "Access-Control-Allow-Origin" "*";
    header "Vary" "Origin";
    header "Access-Control-Allow-Methods" "POST, OPTIONS";
    header "Access-Control-Allow-Headers"
           "Content-Type, Authorization, x-user-id, x-user-tier";
    header "Access-Control-Max-Age" "86400" ].

Definition json_reply (code : Z) (o : list (jsstring * value)) : Reply :=
  {| status := code; headers := cors; payload := Some (VObject o) |}.

(** *** User tier *)

Record TierConfig : Type := { dailyLimit : number; name : jsstring }.

Definition TIER_CONFIG : list (jsstring * TierConfig) :=
  [ (lit "free", {| dailyLimit := num_of_Z 12; name := lit "Gratuit" |});
    (lit "beta", {| dailyLimit := num_of_Z 25; name := lit "Beta" |});
    (lit "premium", {| dailyLimit := num_of_Z 25; name := lit "Premium" |}) ].

(** [TIER_CONFIG] is an object literal: a key it does not own is looked up
    in [Object.prototype], whose properties are these. *)
Definition Object_prototype_keys : list jsstring :=
  [ lit "constructor"; lit "__defineGetter__"; lit "__defineSetter__";
    lit "hasOwnProperty"; lit "__lookupGetter__"; lit "__lookupSetter__";
    lit "isPrototypeOf"; lit "propertyIsEnumerable"; lit "toString";
    lit "valueOf"; lit "__proto__"; lit "toLocaleString" ].

(** The outcome of [TIER_CONFIG[key]]: an own configuration, an inherited
    member (a function, or [Object.prototype] itself for [__proto__]:
    truthy, without [dailyLimit]) or [undefined]. *)
Inductive TierLookup : Type :=
| OwnTier (c : TierConfig)
| Inherited
| NoTier.

Fixpoint find_tier (k : jsstring) (t : list (jsstring * TierConfig)) : option TierConfig :=
  match t with
  | [] => None
  | (k', c) :: r => if jseqb k k' then Some c else find_tier k r
  end.

Definition TIER_CONFIG_get (key : jsstring) : TierLookup :=
  match find_tier key TIER_CONFIG with
  | Some c => OwnTier c
  | None =>
    if existsb (jseqb key) Object_prototype_keys then Inherited else NoTier
  end.

Definition getUserTier (user : User) : value :=
  let publicMetadata := js_or (publicMetadata user) (VObject []) in
  let privateMetadata := js_or (privateMetadata user) (VObject []) in
  if truthy (get_field privateMetadata "tier") then get_field privateMetadata "tier"
  else if truthy (get_field publicMetadata "tier") then get_field publicMetadata "tier"
  else
    let email := match primaryEmailAddress user with
                 | Some e => e
                 | None => []
                 end in
    if endsWith email (lit "@atticusconseil.com")
       || endsWith email (lit "@atticus.com")
       || truthy (get_field publicMetadata "betaAccess")
    then str "beta"
    else str "free".

Section Host.

Variable Number_toString : number -> jsstring.

(** [Buffer.from(token, 'base64').toString('utf-8')]: total on strings. *)
Variable Buffer_base64_utf8 : jsstring -> jsstring.

(** *** Usage tracking *)

(** [a >= b] with a number on the left: [undefined] converts to NaN. *)
Definition ge_value (a : number) (b : value) : bool :=
  match b with
  | VNumber y => num_ge a y
  | _ => false
  end.

(** The unused locals [today] and [usageKey] are left out.  The property
    key is [ToString(userTier)]; a failure of that conversion is caught
    by the [try] of the function. *)
Definition checkUsageLimit (userId : jsstring) (userTier : value) : value :=
  match ToString Number_toString userTier with
  | Throw _ =>
    VObject [ field "allowed" (VBool false);
              field "reason" (str "Usage check failed") ]
  | Normal key =>
    match TIER_CONFIG_get key with
    | NoTier =>
      VObject [ field "allowed" (VBool false);
                field "reason" (str "Invalid user tier") ]
    | found =>
      (* [tierConfig.dailyLimit] and its rendering in a template literal *)
      let limit := match found with
                   | OwnTier c => VNumber (dailyLimit c)
                   | _ => VUndefined
                   end in
      let limit_text := match found with
                        | OwnTier c => Number_toString (dailyLimit c)
                        | _ => lit "undefined"
                        end in
      let currentUsage := num_of_Z 0 in
      if ge_value currentUsage limit then
        VObject [ field "allowed" (VBool false);
                  field "reason"
                    (VString (lit "Daily limit of " ++ limit_text
                              ++ lit " messages exceeded"));
                  field "usage" (VObject [ field "used" (VNumber currentUsage);
                                           field "limit" limit ]) ]
      else
        VObject [ field "allowed" (VBool true);
                  field "usage" (VObject [ field "used" (VNumber currentUsage);
                                           field "limit" limit ]) ]
    end
  end.

(** A placeholder: it logs and returns [true]. *)
Definition incrementUsage (userId : jsstring) : bool := true.

(** *** Helpers *)

(** [keys.reduce((a, k) => ((a[k] = obj[k]), a), {})]. *)
Definition pick_keys (obj : value) (keys : list jsstring) : list (jsstring * value) :=
  fold_left (fun a k => obj_set a k (get_own obj k)) keys [].

Definition safeJSONString (obj : value) (maxLen : Z) : jsstring :=
  match
    cbind (JSON_stringify Number_toString obj) (fun js0 =>
    cbind (the_string js0) (fun s =>
    if (Z.of_nat (length s) <=? maxLen)%Z then Normal s
    else
      cbind (Object_keys obj) (fun ks =>
      let keys := firstn 20 ks in
      cbind (JSON_stringify Number_toString (VObject (pick_keys obj keys))) (fun js1 =>
      cbind (the_string js1) (fun out =>
      Normal (if (Z.of_nat (length out) >? maxLen)%Z
              then slice out 0 (maxLen - 3) ++ lit "..."
              else out))))))
  with
  | Normal r => r
  | Throw _ => lit "{}"
  end.

Definition block_head : jsstring :=
  nl ++ lit "---" ++ nl ++
  js "PROFIL UTILISATEUR (résumé JSON à utiliser pour personnaliser sans le répéter mot à mot) :" ++ nl.

Definition block_tail : jsstring :=
  nl ++ nl ++
  js "Consignes de personnalisation :" ++ nl ++
  js "- Adapter systématiquement recommandations au profil (objectifs, tolérance au risque, horizon, capacité d'épargne)." ++ nl ++
  js "- Ne pas réimprimer le JSON brut ; intégrer l'info naturellement dans la réponse." ++ nl ++
  js "- Privilégier le droit/fiscalité FR et rappeler limites si info manquante/incertaine." ++ nl ++
  lit "---".

(** The template literal converts [baseSystem] with ToString. *)
Definition appendProfileToSystem (baseSystem profile : value) : completion value :=
  if negb (truthy profile) || negb (jseqb (typeof profile) (lit "object"))
  then Normal baseSystem
  else
    let json := safeJSONString profile 4000 in
    let block := block_head ++ json ++ block_tail in
    cbind (ToString Number_toString baseSystem) (fun b =>
    Normal (VString (b ++ nl ++ block))).

(** *** Authentication *)

(** The local state of [authenticateUser]: the variable [user] and the
    calls made so far.  An assignment made before a [throw] stays. *)
Record AuthState : Type := {
  user : option User;
  calls : list Call
}.

Definition M (A : Type) : Type := AuthState -> completion A * AuthState.

Definition ret {A} (a : A) : M A := fun st => (Normal a, st).

Definition bind {A B} (m : M A) (f : A -> M B) : M B :=
  fun st =>
    match m st with
    | (Normal a, st') => f a st'
    | (Throw e, st') => (Throw e, st')
    end.

Definition throw {A} (e : jsstring) : M A := fun st => (Throw e, st).

(** [try { m } catch (e) { h e }]. *)
Definition try_catch {A} (m : M A) (h : jsstring -> M A) : M A :=
  fun st =>
    match m st with
    | (Normal a, st') => (Normal a, st')
    | (Throw e, st') => h e st'
    end.

(** A call to the provider: recorded, then answered. *)
Definition call {A} (c : Call) (answer : completion A) : M A :=
  fun st => (answer, {| user := user st; calls := calls st ++ [c] |}).

(** [user = u]. *)
Definition set_user (u : option User) : M unit :=
  fun st => (Normal tt, {| user := u; calls := calls st |}).

Notation "x <- m ;; k" := (bind m (fun x => k))
  (at level 61, m at next level, right associativity).
Notation "m ;;; k" := (bind m (fun _ => k))
  (at level 61, right associativity).

Section Auth.

Variable clerk : Clerk.

Definition getSession (token : jsstring) : M (option Session) :=
  call (GetSession token) (sessions_getSession clerk token).

(** [user = await clerkClient.users.getUser(i)]: no assignment when the
    call throws. *)
Definition assign_getUser (i : jsstring) : M (option User) :=
  u <- call (GetUser i) (users_getUser clerk i) ;;
  set_user u ;;;
  ret u.

Definition verify (token : jsstring) : M (option Claims) :=
  call (VerifyToken token) (verifyToken clerk token).

Definition nonempty (s : jsstring) : bool :=
  match s with
  | [] => false
  | _ => true
  end.

(** Try 3, the inner [try] block: the token decoded as [email:userId]. *)
Definition base64Composite (token : jsstring) : M unit :=
  let decoded := Buffer_base64_utf8 token in
  if includes decoded (lit ":") then
    let parts := split decoded colon in
    let email := nth 0 parts [] in
    let userId := nth 1 parts [] in
    if nonempty email && nonempty userId then
      u <- assign_getUser userId ;;
      match u with
      | None => throw (TypeError_read "undefined" "primaryEmailAddress")
      | Some usr =>
        match primaryEmailAddress usr with
        | Some e =>
          if jseqb e email then ret tt else throw (lit "Email mismatch")
        | None => throw (lit "Email mismatch")
        end
      end
    else ret tt
  else ret tt.

(** Try 4: the raw token as a user identifier. *)
Definition directLookup (token : jsstring) : M unit :=
  _ <- assign_getUser token ;; ret tt.

(** The body of [catch (jwtError)]. *)
Definition fallback (token : jsstring) : M unit :=
  try_catch
    (if negb (includes token (lit ":")) && (20 <? length token)%nat then
       try_catch (base64Composite token) (fun base64Error => directLookup token)
     else directLookup token)
    (fun fallbackError => ret tt).

(** Try 2: the token as a signed credential. *)
Definition tokenLookup (token : jsstring) : M unit :=
  verifiedToken <- verify token ;;
  match verifiedToken with
  | Some c =>
    if nonempty (sub c) then _ <- assign_getUser (sub c) ;; ret tt else ret tt
  | None => ret tt
  end.

(** The body of [catch (sessionError)]. *)
Definition jwtVerification (token : jsstring) : M unit :=
  try_catch (tokenLookup token) (fun jwtError => fallback token).

(** Try 1: the token as a session identifier. *)
Definition sessionLookup (token : jsstring) : M unit :=
  session <- getSession token ;;
  match session with
  | Some s => _ <- assign_getUser (userId s) ;; ret tt
  | None => ret tt
  end.

(** The whole resolution chain. *)
Definition resolveUser (token : jsstring) : M unit :=
  try_catch (sessionLookup token) (fun sessionError => jwtVerification token).

(** The object returned by [authenticateUser]. *)
Inductive AuthResult : Type :=
| AuthError (error : jsstring) (code : Z)
| AuthSuccess (u : User) (userTier : value) (userId : jsstring).

(** The template literal of the log of a successful resolution,
    [`User authenticated: ${user.firstName} (${user.id}) - Tier: ${userTier}`]:
    it converts the tier with ToString, inside the outer [try]. *)
Definition authenticated_log (u : User) (userTier : value) : completion jsstring :=
  cbind (ToString Number_toString userTier) (fun t =>
  Normal (lit "User authenticated: "
          ++ match firstName u with
             | Some f => f
             | None => lit "null"
             end
          ++ lit " (" ++ id u ++ lit ") - Tier: " ++ t)).

(** The provider throws Error objects, of which the [catch] blocks of the
    chain log the [message]; whatever else throws inside the outer [try]
    is answered "Authentication failed". *)
Definition authenticateUser (req : Request) : AuthResult * list Call :=
  match authorization req with
  | None => (AuthError (lit "Missing or invalid authorization header") 401, [])
  | Some authHeader =>
    if negb (nonempty authHeader) || negb (startsWith authHeader (lit "Bearer "))
    then (AuthError (lit "Missing or invalid authorization header") 401, [])
    else
      let token := slice_from authHeader 7 in
      match resolveUser token {| user := None; calls := [] |} with
      | (Throw _, st) => (AuthError (lit "Authentication failed") 401, calls st)
      | (Normal _, st) =>
        match user st with
        | None => (AuthError (lit "Invalid authentication token") 401, calls st)
        | Some u =>
          let userTier := getUserTier u in
          match authenticated_log u userTier with
          | Normal _ => (AuthSuccess u userTier (id u), calls st)
          | Throw _ => (AuthError (lit "Authentication failed") 401, calls st)
          end
        end
      end
  end.

End Auth.

(** *** The API route *)

(** The fixed persona of the assistant, line by line (the template literal
    of [handler]); the text ends with a line break. *)
Definition BASE_PERSONA_lines : list jsstring := [
  js "Vous êtes Atticus Chat, un assistant IA expert en gestion de patrimoine et investissement en France.";
  js "Toujours donner des réponses claires, argumentées et adaptées au droit/fiscalité française.";
  [];
  js "IMPORTANT : Pour créer des graphiques, utilisez cette syntaxe spéciale avec unités et explications: ";
  js "[CHART:type|data|options] ";
  [];
  js "Types disponibles: line, bar, doughnut, pie";
  js "(ATTENTION: N'utilisez PAS " ++ dquote ++ js "polarArea" ++ dquote ++ js " - non supporté par le système)";
  [];
  js "RÈGLES CRITIQUES pour éviter les erreurs:";
  js "1. Pour graphiques en secteurs (pie/doughnut): backgroundColor doit être un ARRAY de couleurs";
  js "2. Pour graphiques en barres/lignes: backgroundColor doit être une STRING (couleur unique) par dataset";
  js "3. TOUJOURS vérifier que data.length = labels.length";
  js "4. TOUJOURS fermer correctement le JSON avec toutes les accolades";
  js "5. Pour graphiques empilés: ajouter " ++ dquote ++ js "stacked" ++ dquote ++ js ":true sur BOTH x et y dans scales";
  [];
  js "Exemple CORRECT pour graphique en secteurs:";
  js "[CHART:doughnut|{" ++ dquote ++ js "labels" ++ dquote ++ js ":[" ++ dquote ++ js "PEA Actions" ++ dquote ++ js "," ++ dquote ++ js "Assurance-vie" ++ dquote ++ js "," ++ dquote ++ js "SCPI" ++ dquote ++ js "," ++ dquote ++ js "Liquidités" ++ dquote ++ js "," ++ dquote ++ js "Autres" ++ dquote ++ js "]," ++ dquote ++ js "datasets" ++ dquote ++ js ":[{" ++ dquote ++ js "data" ++ dquote ++ js ":[35,25,20,15,5]," ++ dquote ++ js "backgroundColor" ++ dquote ++ js ":[" ++ dquote ++ js "#3b82f6" ++ dquote ++ js "," ++ dquote ++ js "#10b981" ++ dquote ++ js "," ++ dquote ++ js "#f59e0b" ++ dquote ++ js "," ++ dquote ++ js "#6366f1" ++ dquote ++ js "," ++ dquote ++ js "#ef4444" ++ dquote ++ js "]," ++ dquote ++ js "borderColor" ++ dquote ++ js ":" ++ dquote ++ js "#1f2937" ++ dquote ++ js "," ++ dquote ++ js "borderWidth" ++ dquote ++ js ":2," ++ dquote ++ js "unit" ++ dquote ++ js ":" ++ dquote ++ js "%" ++ dquote ++ js "," ++ dquote ++ js "label" ++ dquote ++ js ":" ++ dquote ++ js "Répartition patrimoine" ++ dquote ++ js "}]," ++ dquote ++ js "explanation" ++ dquote ++ js ":" ++ dquote ++ js "Cette répartition équilibrée pour un profil modéré privilégie la croissance via le PEA (35%) tout en conservant la sécurité avec l'assurance-vie (25%) et la diversification immobilière SCPI (20%). Les liquidités (15%) assurent la flexibilité." ++ dquote ++ js "}|{" ++ dquote ++ js "responsive" ++ dquote ++ js ":true," ++ dquote ++ js "plugins" ++ dquote ++ js ":{" ++ dquote ++ js "legend" ++ dquote ++ js ":{" ++ dquote ++ js "position" ++ dquote ++ js ":" ++ dquote ++ js "bottom" ++ dquote ++ js "," ++ dquote ++ js "labels" ++ dquote ++ js ":{" ++ dquote ++ js "color" ++ dquote ++ js ":" ++ dquote ++ js "#f3f4f6" ++ dquote ++ js "}}}}]";
  [];
  js "Exemple CORRECT pour graphique en barres simple:";
  js "[CHART:bar|{" ++ dquote ++ js "labels" ++ dquote ++ js ":[" ++ dquote ++ js "Fonds euros" ++ dquote ++ js "," ++ dquote ++ js "SCPI" ++ dquote ++ js "," ++ dquote ++ js "Actions PEA" ++ dquote ++ js "," ++ dquote ++ js "UC Assurance-vie" ++ dquote ++ js "]," ++ dquote ++ js "datasets" ++ dquote ++ js ":[{" ++ dquote ++ js "label" ++ dquote ++ js ":" ++ dquote ++ js "Rendement estimé" ++ dquote ++ js "," ++ dquote ++ js "data" ++ dquote ++ js ":[2.5,4.5,6.8,5.2]," ++ dquote ++ js "backgroundColor" ++ dquote ++ js ":" ++ dquote ++ js "#3b82f6" ++ dquote ++ js "," ++ dquote ++ js "borderColor" ++ dquote ++ js ":" ++ dquote ++ js "#1d4ed8" ++ dquote ++ js "," ++ dquote ++ js "borderWidth" ++ dquote ++ js ":1," ++ dquote ++ js "unit" ++ dquote ++ js ":" ++ dquote ++ js "%" ++ dquote ++ js "}]," ++ dquote ++ js "explanation" ++ dquote ++ js ":" ++ dquote ++ js "Les actions PEA offrent le meilleur potentiel de rendement (6,8%) mais avec plus de volatilité. Les SCPI (4,5%) offrent un bon compromis rendement/risque avec des revenus réguliers." ++ dquote ++ js "}|{" ++ dquote ++ js "responsive" ++ dquote ++ js ":true," ++ dquote ++ js "plugins" ++ dquote ++ js ":{" ++ dquote ++ js "legend" ++ dquote ++ js ":{" ++ dquote ++ js "labels" ++ dquote ++ js ":{" ++ dquote ++ js "color" ++ dquote ++ js ":" ++ dquote ++ js "#f3f4f6" ++ dquote ++ js "}}}," ++ dquote ++ js "scales" ++ dquote ++ js ":{" ++ dquote ++ js "x" ++ dquote ++ js ":{" ++ dquote ++ js "ticks" ++ dquote ++ js ":{" ++ dquote ++ js "color" ++ dquote ++ js ":" ++ dquote ++ js "#f3f4f6" ++ dquote ++ js "}," ++ dquote ++ js "grid" ++ dquote ++ js ":{" ++ dquote ++ js "color" ++ dquote ++ js ":" ++ dquote ++ js "rgba(255,255,255,0.1)" ++ dquote ++ js "}}," ++ dquote ++ js "y" ++ dquote ++ js ":{" ++ dquote ++ js "ticks" ++ dquote ++ js ":{" ++ dquote ++ js "color" ++ dquote ++ js ":" ++ dquote ++ js "#f3f4f6" ++ dquote ++ js "}," ++ dquote ++ js "grid" ++ dquote ++ js ":{" ++ dquote ++ js "color" ++ dquote ++ js ":" ++ dquote ++ js "rgba(255,255,255,0.1)" ++ dquote ++ js "}}}}]";
  [];
  js "Exemple CORRECT pour graphique empilé (stacked bar):";
  js "[CHART:bar|{" ++ dquote ++ js "labels" ++ dquote ++ js ":[" ++ dquote ++ js "20-30 ans" ++ dquote ++ js "," ++ dquote ++ js "30-40 ans" ++ dquote ++ js "," ++ dquote ++ js "40-50 ans" ++ dquote ++ js "," ++ dquote ++ js "50-60 ans" ++ dquote ++ js "," ++ dquote ++ js "60+ ans" ++ dquote ++ js "]," ++ dquote ++ js "datasets" ++ dquote ++ js ":[{" ++ dquote ++ js "label" ++ dquote ++ js ":" ++ dquote ++ js "Actions" ++ dquote ++ js "," ++ dquote ++ js "data" ++ dquote ++ js ":[60,50,40,25,15]," ++ dquote ++ js "backgroundColor" ++ dquote ++ js ":" ++ dquote ++ js "#3b82f6" ++ dquote ++ js "," ++ dquote ++ js "unit" ++ dquote ++ js ":" ++ dquote ++ js "%" ++ dquote ++ js "},{" ++ dquote ++ js "label" ++ dquote ++ js ":" ++ dquote ++ js "Obligations" ++ dquote ++ js "," ++ dquote ++ js "data" ++ dquote ++ js ":[20,25,30,35,40]," ++ dquote ++ js "backgroundColor" ++ dquote ++ js ":" ++ dquote ++ js "#10b981" ++ dquote ++ js "," ++ dquote ++ js "unit" ++ dquote ++ js ":" ++ dquote ++ js "%" ++ dquote ++ js "},{" ++ dquote ++ js "label" ++ dquote ++ js ":" ++ dquote ++ js "Immobilier" ++ dquote ++ js "," ++ dquote ++ js "data" ++ dquote ++ js ":[15,20,25,30,35]," ++ dquote ++ js "backgroundColor" ++ dquote ++ js ":" ++ dquote ++ js "#f59e0b" ++ dquote ++ js "," ++ dquote ++ js "unit" ++ dquote ++ js ":" ++ dquote ++ js "%" ++ dquote ++ js "},{" ++ dquote ++ js "label" ++ dquote ++ js ":" ++ dquote ++ js "Liquidités" ++ dquote ++ js "," ++ dquote ++ js "data" ++ dquote ++ js ":[5,5,5,10,10]," ++ dquote ++ js "backgroundColor" ++ dquote ++ js ":" ++ dquote ++ js "#6366f1" ++ dquote ++ js "," ++ dquote ++ js "unit" ++ dquote ++ js ":" ++ dquote ++ js "%" ++ dquote ++ js "}]," ++ dquote ++ js "explanation" ++ dquote ++ js ":" ++ dquote ++ js "Allocation patrimoniale recommandée par tranche d'âge. Plus on avance en âge, plus la part d'actions diminue au profit des obligations et de l'immobilier pour réduire le risque." ++ dquote ++ js "}|{" ++ dquote ++ js "responsive" ++ dquote ++ js ":true," ++ dquote ++ js "plugins" ++ dquote ++ js ":{" ++ dquote ++ js "legend" ++ dquote ++ js ":{" ++ dquote ++ js "labels" ++ dquote ++ js ":{" ++ dquote ++ js "color" ++ dquote ++ js ":" ++ dquote ++ js "#f3f4f6" ++ dquote ++ js "}}}," ++ dquote ++ js "scales" ++ dquote ++ js ":{" ++ dquote ++ js "x" ++ dquote ++ js ":{" ++ dquote ++ js "stacked" ++ dquote ++ js ":true," ++ dquote ++ js "ticks" ++ dquote ++ js ":{" ++ dquote ++ js "color" ++ dquote ++ js ":" ++ dquote ++ js "#f3f4f6" ++ dquote ++ js "}," ++ dquote ++ js "grid" ++ dquote ++ js ":{" ++ dquote ++ js "color" ++ dquote ++ js ":" ++ dquote ++ js "rgba(255,255,255,0.1)" ++ dquote ++ js "}}," ++ dquote ++ js "y" ++ dquote ++ js ":{" ++ dquote ++ js "stacked" ++ dquote ++ js ":true," ++ dquote ++ js "ticks" ++ dquote ++ js ":{" ++ dquote ++ js "color" ++ dquote ++ js ":" ++ dquote ++ js "#f3f4f6" ++ dquote ++ js "}," ++ dquote ++ js "grid" ++ dquote ++ js ":{" ++ dquote ++ js "color" ++ dquote ++ js ":" ++ dquote ++ js "rgba(255,255,255,0.1)" ++ dquote ++ js "}}}}]";
  [];
  js "Exemple CORRECT pour graphique temporel:";
  js "[CHART:line|{" ++ dquote ++ js "labels" ++ dquote ++ js ":[" ++ dquote ++ js "2020" ++ dquote ++ js "," ++ dquote ++ js "2021" ++ dquote ++ js "," ++ dquote ++ js "2022" ++ dquote ++ js "," ++ dquote ++ js "2023" ++ dquote ++ js "," ++ dquote ++ js "2024" ++ dquote ++ js "]," ++ dquote ++ js "datasets" ++ dquote ++ js ":[{" ++ dquote ++ js "label" ++ dquote ++ js ":" ++ dquote ++ js "Évolution rendement" ++ dquote ++ js "," ++ dquote ++ js "data" ++ dquote ++ js ":[1.2,1.8,2.1,2.8,3.1]," ++ dquote ++ js "backgroundColor" ++ dquote ++ js ":" ++ dquote ++ js "#60a5fa" ++ dquote ++ js "," ++ dquote ++ js "borderColor" ++ dquote ++ js ":" ++ dquote ++ js "#3b82f6" ++ dquote ++ js "," ++ dquote ++ js "borderWidth" ++ dquote ++ js ":2," ++ dquote ++ js "unit" ++ dquote ++ js ":" ++ dquote ++ js "%" ++ dquote ++ js "}]," ++ dquote ++ js "explanation" ++ dquote ++ js ":" ++ dquote ++ js "L'évolution positive des rendements des fonds euros reflète la remontée progressive des taux d'intérêt depuis 2022, bénéficiant aux nouveaux investissements." ++ dquote ++ js "}|{" ++ dquote ++ js "responsive" ++ dquote ++ js ":true," ++ dquote ++ js "plugins" ++ dquote ++ js ":{" ++ dquote ++ js "legend" ++ dquote ++ js ":{" ++ dquote ++ js "labels" ++ dquote ++ js ":{" ++ dquote ++ js "color" ++ dquote ++ js ":" ++ dquote ++ js "#f3f4f6" ++ dquote ++ js "}}}," ++ dquote ++ js "scales" ++ dquote ++ js ":{" ++ dquote ++ js "x" ++ dquote ++ js ":{" ++ dquote ++ js "ticks" ++ dquote ++ js ":{" ++ dquote ++ js "color" ++ dquote ++ js ":" ++ dquote ++ js "#f3f4f6" ++ dquote ++ js "}," ++ dquote ++ js "grid" ++ dquote ++ js ":{" ++ dquote ++ js "color" ++ dquote ++ js ":" ++ dquote ++ js "rgba(255,255,255,0.1)" ++ dquote ++ js "}}," ++ dquote ++ js "y" ++ dquote ++ js ":{" ++ dquote ++ js "ticks" ++ dquote ++ js ":{" ++ dquote ++ js "color" ++ dquote ++ js ":" ++ dquote ++ js "#f3f4f6" ++ dquote ++ js "}," ++ dquote ++ js "grid" ++ dquote ++ js ":{" ++ dquote ++ js "color" ++ dquote ++ js ":" ++ dquote ++ js "rgba(255,255,255,0.1)" ++ dquote ++ js "}}}}]";
  [];
  js "TOUJOURS inclure:";
  js "- " ++ dquote ++ js "unit" ++ dquote ++ js " dans chaque dataset (%, €, k€, etc.)";
  js "- " ++ dquote ++ js "label" ++ dquote ++ js " descriptif pour chaque dataset  ";
  js "- " ++ dquote ++ js "explanation" ++ dquote ++ js " pour expliquer le graphique et ses implications";
  js "- Des couleurs cohérentes: #3b82f6 (bleu), #10b981 (vert), #f59e0b (orange), #6366f1 (indigo), #ef4444 (rouge)";
  js "- Des valeurs réalistes et cohérentes";
  js "- JSON parfaitement fermé avec toutes les accolades";
  [];
  js "Palette de couleurs recommandée:";
  js "- Bleu principal: #3b82f6";
  js "- Vert: #10b981  ";
  js "- Orange: #f59e0b";
  js "- Indigo: #6366f1";
  js "- Rouge: #ef4444";
  js "- Gris: #6b7280";
  [];
  js "Structurez vos réponses avec des sections HTML claires: ";
  js "- <div class=" ++ dquote ++ js "content-section" ++ dquote ++ js "> pour les sections principales ";
  js "- <div class=" ++ dquote ++ js "content-grid" ++ dquote ++ js "> pour organiser les cartes ";
  js "- <div class=" ++ dquote ++ js "content-card" ++ dquote ++ js "> pour afficher des métriques ";
  js "- <table class=" ++ dquote ++ js "data-table" ++ dquote ++ js "> pour les tableaux de données ";
  [];
  js "Utilisez des graphiques pour illustrer les allocations, comparaisons, et évolutions quand ils apportent de la valeur ajoutée. ";
  js "Rédigez en français de manière claire et professionnelle avec des conseils pratiques.";
  []
].

Definition BASE_PERSONA : jsstring := join nl BASE_PERSONA_lines.

(** [x = d] in a destructuring pattern: the default replaces [undefined]
    only. *)
Definition default (v d : value) : value :=
  match v with
  | VUndefined => d
  | _ => v
  end.

(** [{ ...data }]: the own enumerable properties of [data], none for
    [undefined] and [null]. *)
Definition spread (data : value) : list (jsstring * value) :=
  match own_entries data with
  | Normal es => fold_left (fun a kv => obj_define a (fst kv) (snd kv)) es []
  | Throw _ => []
  end.

Definition anthropic_request (key : jsstring) (b : option jsstring) : FetchInit :=
  {| url := lit "https://api.anthropic.com/v1/messages";
     fetch_method := lit "POST";
     fetch_headers := [ (lit "content-type", lit "application/json");
                        (lit "x-api-key", key);
                        (lit "anthropic-version", lit "2023-06-01") ];
     fetch_body := b |}.

(** The request of [handler] to the LLM provider, from the destructuring
    of the body to the argument of [fetch]; it throws when an expression
    on the way does. *)
Definition build_request (env : Env) (key : jsstring) (req : Request)
  : completion FetchInit :=
  let b := js_or (body req) (VObject []) in
  let messages := default (get_field b "messages") (VArray []) in
  let model := default (get_field b "model") (str "claude-sonnet-4-20250514") in
  let max_tokens := default (get_field b "max_tokens") (VNumber (num_of_Z 3000)) in
  let profile := get_field b "profile" in
  let incomingSystem := get_field b "system" in
  let production := match NODE_ENV env with
                    | Some e => jseqb e (lit "production")
                    | None => false
                    end in
  (* [messages.length] in the development log *)
  let logged := if production then Normal tt
                else match messages with
                     | VNull => Throw (TypeError_read "null" "length")
                     | _ => Normal tt
                     end in
  cbind logged (fun _ =>
  let BASE_SYSTEM := js_or incomingSystem (VString BASE_PERSONA) in
  cbind (appendProfileToSystem BASE_SYSTEM profile) (fun system =>
  cbind (JSON_stringify Number_toString
           (VObject [ field "model" model; field "max_tokens" max_tokens;
                      field "system" system; field "messages" messages ]))
        (fun text => Normal (anthropic_request key text)))).

(** What [handler] makes of the response of the provider. *)
Definition relay (resp : Response) (userTier : value) (userId : jsstring)
  : completion Reply :=
  if negb (ok resp) then
    Normal (json_reply (if (resp_status resp >=? 500)%Z then 500
                        else resp_status resp)
              [ field "error"
                  (if (resp_status resp >=? 500)%Z
                   then str "Internal server error"
                   else str "API request failed") ])
  else
    cbind (resp_json resp) (fun data =>
    let _ := incrementUsage userId in
    let updatedUsage := checkUsageLimit userId userTier in
    Normal (json_reply 200
              (obj_define
                 (obj_define (spread data) (lit "usage")
                             (get_field updatedUsage "usage"))
                 (lit "userTier") userTier))).

(** The part of [handler] that follows the check of the API key, inside
    the [try]: the reply or the exception, and the call made. *)
Definition proxy (env : Env) (key : jsstring) (req : Request)
    (userTier : value) (userId : jsstring) : completion Reply * list Call :=
  match build_request env key req with
  | Throw m => (Throw m, [])
  | Normal init =>
    (cbind (fetch env init) (fun resp => relay resp userTier userId),
     [Fetch init])
  end.

Definition handler (env : Env) (req : Request) : Reply * list Call :=
  if jseqb (method req) (lit "OPTIONS") then
    ({| status := 204; headers := cors; payload := None |}, [])
  else if negb (jseqb (method req) (lit "POST")) then
    ({| status := 405;
        headers := cors ++ [ (lit "Allow", VArray [ str "POST"; str "OPTIONS" ]) ];
        payload := Some (VObject [ field "error" (str "Method Not Allowed") ]) |}, [])
  else
    match authenticateUser (clerkClient env) req with
    | (AuthError error code, cs) =>
      (json_reply code [ field "error" (VString error) ], cs)
    | (AuthSuccess u userTier userId, cs) =>
      let usageCheck := checkUsageLimit userId userTier in
      if negb (truthy (get_field usageCheck "allowed")) then
        (json_reply 429
           [ field "error" (str "Usage limit exceeded");
             field "reason" (get_field usageCheck "reason");
             field "usage" (get_field usageCheck "usage");
             field "userTier" userTier;
             field "resetTime" (VNumber (next_midnight env)) ], cs)
      else
        match CLAUDE_API_KEY env with
        | Some (k0 :: k') =>
          match proxy env (k0 :: k') req userTier userId with
          | (Normal r, cs') => (r, cs ++ cs')
          | (Throw _, cs') =>
            (json_reply 500 [ field "error" (str "Internal Server Error") ], cs ++ cs')
          end
        | _ =>
          (json_reply 500 [ field "error" (str "Server configuration error") ], cs)
        end
    end.

End Host.

(** *** Vocabulary of the properties *)

(** The result of an allowed check. *)
Definition allowed_with (limit : value) : value :=
  VObject [ field "allowed" (VBool true);
            field "usage" (VObject [ field "used" (VNumber (num_of_Z 0));
                                     field "limit" limit ]) ].

(** The reply of the outermost [catch] of [handler]. *)
Definition internal_error : Reply :=
  json_reply 500 [ field "error" (str "Internal Server Error") ].

(** The answer to a user lookup is a user whose primary address is
    [email]. *)
Definition email_matches (r : completion (option User)) (email : jsstring) : bool :=
  match r with
  | Normal (Some u) =>
    match primaryEmailAddress u with
    | Some e => jseqb e email
    | None => false
    end
  | _ => false
  end.

Definition is_fetch (c : Call) : bool :=
  match c with
  | Fetch _ => true
  | _ => false
  end.

(** A computation of the resolver that makes no call to the LLM
    provider. *)
Definition quiet {A} (m : M A) : Prop :=
  forall st, forallb (fun c => negb (is_fetch c)) (calls st) = true ->
             forallb (fun c => negb (is_fetch c)) (calls (snd (m st))) = true.

End Claude.

(* ===================================================================== *)
(** ** Values of a parsed request body *)
(* ===================================================================== *)

(** A body parsed from the request carries no BigInt, the one kind of
    value that [JSON.stringify] refuses. *)
Fixpoint bigint_free (v : value) : bool :=
  match v with
  | VBigInt _ => false
  | VArray l => forallb bigint_free l
  | VObject ps => forallb (fun kv => bigint_free (snd kv)) ps
  | _ => true
  end.

(* ===================================================================== *)
(** ** A host to run the model on sample inputs *)
(* ===================================================================== *)

Fixpoint frac_digits (fuel : nat) (f d : N) : jsstring :=
  match fuel with
  | O => []
  | S n =>
    if (f =? 0)%N then []
    else (48 + (f * 10) / d)%N :: frac_digits n ((f * 10) mod d)%N d
  end.

(** The exact decimal expansion of a binary64 value.  It is the host's
    Number::toString on the integers below 10^21 and on the fractions
    whose shortest rendering is exact. *)
Definition Number_toString_exact (x : number) : jsstring :=
  match x with
  | S754_zero _ => lit "0"
  | S754_nan => lit "NaN"
  | S754_infinity s => (if s then lit "-" else []) ++ lit "Infinity"
  | S754_finite s m e =>
    (if s then lit "-" else []) ++
    match e with
    | Zneg k =>
      let d := (2 ^ Npos k)%N in
      decimal (Npos m / d) ++
      (if (Npos m mod d =? 0)%N then []
       else lit "." ++ frac_digits (Pos.to_nat k) (Npos m mod d)%N d)
    | _ => decimal (Npos m * 2 ^ Z.to_N e)
    end
  end.

Definition base64_sextet (c : N) : option N :=
  if (65 <=? c)%N && (c <=? 90)%N then Some (c - 65)%N
  else if (97 <=? c)%N && (c <=? 122)%N then Some (c - 71)%N
  else if (48 <=? c)%N && (c <=? 57)%N then Some (c + 4)%N
  else if (c =? 43)%N || (c =? 45)%N then Some 62%N
  else if (c =? 47)%N || (c =? 95)%N then Some 63%N
  else None.

Fixpoint sextets (s : jsstring) : list N :=
  match s with
  | [] => []
  | c :: r =>
    match base64_sextet c with
    | Some v => v :: sextets r
    | None => sextets r
    end
  end.

Fixpoint octets (l : list N) : list N :=
  match l with
  | a :: b :: c :: d :: r =>
    (a * 4 + b / 16)%N :: ((b mod 16) * 16 + c / 4)%N
      :: ((c mod 4) * 64 + d)%N :: octets r
  | [a; b; c] => [(a * 4 + b / 16)%N; ((b mod 16) * 16 + c / 4)%N]
  | [a; b] => [(a * 4 + b / 16)%N]
  | _ => []
  end.

(** Base64 decoding followed by UTF-8 decoding, as [Buffer] does them on
    well-formed input; characters outside the alphabet are skipped. *)
Definition base64_utf8 (token : jsstring) : jsstring :=
  utf8_units (octets (sextets token)).

(** *** Sample requests and providers *)

Definition sample_now : jsstring := lit "2025-01-01T12:00:00.000Z".

Definition post (a : option jsstring) (b : value) : Request :=
  {| method := lit "POST"; authorization := a; body := b |}.

Definition sample_user (priv pub : value) : Claude.User :=
  {| Claude.id := lit "user_1";
     Claude.firstName := Some (lit "Ada");
     Claude.primaryEmailAddress := Some (lit "ada@example.com");
     Claude.publicMetadata := pub;
     Claude.privateMetadata := priv |}.

(** A provider that knows one session, [sess_1], of the user [u]. *)
Definition session_clerk (u : Claude.User) : Claude.Clerk :=
  {| Claude.sessions_getSession := fun t =>
       if jseqb t (lit "sess_1")
       then Normal (Some {| Claude.userId := Claude.id u |})
       else Throw (lit "Not Found");
     Claude.users_getUser := fun i =>
       if jseqb i (Claude.id u) then Normal (Some u) else Throw (lit "Not Found");
     Claude.verifyToken := fun _ => Throw (lit "Invalid token") |}.

(** A provider without sessions or tokens that serves every user
    identifier. *)
Definition users_clerk : Claude.Clerk :=
  {| Claude.sessions_getSession := fun _ => Throw (lit "Not Found");
     Claude.users_getUser := fun i =>
       Normal (Some {| Claude.id := i;
                       Claude.firstName := None;
                       Claude.primaryEmailAddress := Some (lit "ada@example.com");
                       Claude.publicMetadata := VObject [];
                       Claude.privateMetadata := VObject [] |});
     Claude.verifyToken := fun _ => Throw (lit "Invalid token") |}.

Definition sample_env (c : Claude.Clerk) (resp : Claude.Response) : Claude.Env :=
  {| Claude.clerkClient := c;
     Claude.fetch := fun _ => Normal resp;
     Claude.CLAUDE_API_KEY := Some (lit "sk-sample");
     Claude.NODE_ENV := Some (lit "production");
     Claude.next_midnight := num_of_Z 1735776000000 |}.

Definition sample_completion : Claude.Response :=
  {| Claude.resp_status := 200;
     Claude.resp_text := [];
     Claude.resp_json := Normal (VObject [ field "role" (str "assistant") ]) |}.

Definition chat_request (b : value) : Request :=
  post (Some (lit "Bearer sess_1")) b.

Definition constructor_user : Claude.User :=
  sample_user (VObject [ field "tier" (str "constructor") ]) (VObject []).

Definition premium_user : Claude.User :=
  sample_user (VObject [ field "tier" (str "premium") ]) (VObject []).

(** A failure of the provider, with a body of its own. *)
Definition unavailable : Claude.Response :=
  {| Claude.resp_status := 503;
     Claude.resp_text := lit "upstream connect error";
     Claude.resp_json := Throw (lit "Unexpected token u in JSON at position 0") |}.

Definition body_plain : value :=
  VObject [ field "messages" (VArray []); field "system" (str "Be brief.") ].

Definition body_with_tier : value :=
  VObject [ field "userTier" (str "premium");
            field "messages" (VArray []); field "system" (str "Be brief.") ].

(** A profile whose serialization is longer than the cap. *)
Definition long_profile : value :=
  VObject [ field "goal" (VString (repeat 120%N 5000)) ].

(** [base64(":user_2NNEqL2nrIRdJ194ndJqAHwEfxC")]: an empty e-mail part. *)
Definition token_without_email : jsstring :=
  lit "OnVzZXJfMk5ORXFMMm5ySVJkSjE5NG5kSnFBSHdFZnhD".

(** [base64("eve@example.com:user_1")]. *)
Definition token_of_eve : jsstring :=
  lit "ZXZlQGV4YW1wbGUuY29tOnVzZXJfMQ==".

(* ===================================================================== *)
(** ** [api/claude-v2.js] *)
(* ===================================================================== *)

Module ClaudeV2.

(** The environment variables read and the clock
    ([new Date().toISOString()]). *)
Record Env : Type := {
  CLAUDE_API_KEY : option jsstring;
  CLERK_SECRET_KEY : option jsstring;
  now_iso : jsstring
}.

Definition site : jsstring := lit "https://atticuschat.space".
Definition www_site : jsstring := lit "https://www.atticuschat.space".

(** The headers set by [applyCors], in order; [origin] is
    [req.headers.origin]. *)
Definition applyCors (origin : option jsstring) : list (jsstring * value) :=
  match origin with
  | Some o =>
    if jseqb o site || jseqb o www_site then
      [ (lit "Access-Control-Allow-Origin", VString o);
        header "Access-Control-Allow-Credentials" "true" ]
    else [ header "Access-Control-Allow-Origin" "*" ]
  | None => [ header "Access-Control-Allow-Origin" "*" ]
  end
  ++ [ header "Vary" "Origin";
       header "Access-Control-Allow-Methods" "POST, OPTIONS";
       header "Access-Control-Allow-Headers"
              "Content-Type, Authorization, x-user-id, x-user-tier";
       header "Access-Control-Max-Age" "86400" ].

(** [!process.env.X]: the variable is missing or empty. *)
Definition unset (v : option jsstring) : bool :=
  match v with
  | Some (_ :: _) => false
  | _ => true
  end.

Definition handler (env : Env) (origin : option jsstring) (req : Request) : Reply :=
  let hs := applyCors origin in
  if jseqb (method req) (lit "OPTIONS") then
    {| status := 200; headers := hs; payload := None |}
  else if negb (jseqb (method req) (lit "POST")) then
    {| status := 405;
       headers := hs ++ [ (lit "Allow", VArray [ str "POST"; str "OPTIONS" ]) ];
       payload := Some (VObject [ field "error" (str "Method Not Allowed") ]) |}
  else if unset (CLAUDE_API_KEY env) then
    {| status := 500; headers := hs;
       payload := Some (VObject [ field "error" (str "Claude API key not configured") ]) |}
  else if unset (CLERK_SECRET_KEY env) then
    {| status := 500; headers := hs;
       payload := Some (VObject [ field "error" (str "Clerk secret key not configured") ]) |}
  else
    {| status := 200; headers := hs;
       payload := Some (VObject
         [ field "status" (str "API working");
           field "message" (str "Environment variables configured correctly");
           field "timestamp" (VString (now_iso env)) ]) |}.

End ClaudeV2.

(* ===================================================================== *)
(** ** Vocabulary of the further properties *)
(* ===================================================================== *)

(** A request with a bearer token. *)
Definition bearer (m : jsstring) (token : jsstring) (b : value) : Request :=
  {| method := m; authorization := Some (lit "Bearer " ++ token); body := b |}.

(** The state in which the resolver starts. *)
Definition fresh : Claude.AuthState := {| Claude.user := None; Claude.calls := [] |}.

(** A computation of the resolver that only appends calls, at most [n] of
    them. *)
Definition at_most (n : nat) {A} (m : Claude.M A) : Prop :=
  forall st, exists extra,
    Claude.calls (snd (m st)) = Claude.calls st ++ extra
    /\ (length extra <= n)%nat.

(** The variable [user] holds nothing but an answer of the provider to a
    user lookup that was made. *)
Definition from_provider (clerk : Claude.Clerk) (st : Claude.AuthState) : Prop :=
  forall u, Claude.user st = Some u ->
    exists i, In (Claude.GetUser i) (Claude.calls st)
              /\ Claude.users_getUser clerk i = Normal (Some u).

(** A computation of the resolver that keeps [from_provider]. *)
Definition keeps_provenance (clerk : Claude.Clerk) {A} (m : Claude.M A) : Prop :=
  forall st, from_provider clerk st -> from_provider clerk (snd (m st)).

(** Two header names. *)
Definition allow_origin : jsstring := lit "Access-Control-Allow-Origin".
Definition allow_credentials : jsstring := lit "Access-Control-Allow-Credentials".

(** The two refusals of the usage check that do not come from a limit. *)
Definition invalid_tier : value :=
  VObject [ field "allowed" (VBool false);
            field "reason" (str "Invalid user tier") ].

Definition check_failed : value :=
  VObject [ field "allowed" (VBool false);
            field "reason" (str "Usage check failed") ].

(** Three replies of the chat endpoint. *)
Definition unauthorized : Reply :=
  Claude.json_reply 401
    [ field "error" (str "Missing or invalid authorization header") ].

Definition misconfigured : Reply :=
  Claude.json_reply 500 [ field "error" (str "Server configuration error") ].

(** The headers of the request to the LLM provider. *)
Definition anthropic_headers (key : jsstring) : list (jsstring * jsstring) :=
  [ (lit "content-type", lit "application/json");
    (lit "x-api-key", key);
    (lit "anthropic-version", lit "2023-06-01") ].

(** *** Further samples *)

Definition ada : Claude.User := sample_user (VObject []) (VObject []).

(** A user whose tier has no string conversion: an object with an own
    [toString] that is not callable. *)
Definition stringless_user : Claude.User :=
  sample_user (VObject [ field "tier" (VObject [ field "toString" (VNumber (num_of_Z 1)) ]) ])
              (VObject []).

(** A provider whose every operation throws. *)
Definition down_clerk : Claude.Clerk :=
  {| Claude.sessions_getSession := fun _ => Throw (lit "Service Unavailable");
     Claude.users_getUser := fun _ => Throw (lit "Service Unavailable");
     Claude.verifyToken := fun _ => Throw (lit "Service Unavailable") |}.

(** A provider that finds no session and throws on the rest. *)
Definition no_session_clerk : Claude.Clerk :=
  {| Claude.sessions_getSession := fun _ => Normal None;
     Claude.users_getUser := fun _ => Throw (lit "Not Found");
     Claude.verifyToken := fun _ => Throw (lit "Invalid token") |}.

Definition keyless_env (c : Claude.Clerk) : Claude.Env :=
  {| Claude.clerkClient := c;
     Claude.fetch := fun _ => Throw (lit "fetch failed");
     Claude.CLAUDE_API_KEY := None;
     Claude.NODE_ENV := Some (lit "production");
     Claude.next_midnight := num_of_Z 1735776000000 |}.

Definition development_env (c : Claude.Clerk) (resp : Claude.Response) : Claude.Env :=
  {| Claude.clerkClient := c;
     Claude.fetch := fun _ => Normal resp;
     Claude.CLAUDE_API_KEY := Some (lit "sk-sample");
     Claude.NODE_ENV := Some (lit "development");
     Claude.next_midnight := num_of_Z 1735776000000 |}.

(** The request that [handler] sends for [body_plain] with the sample
    key ([None] if it could not be built). *)
Definition sample_init : option Claude.FetchInit :=
  match Claude.build_request Number_toString_exact
          (sample_env (session_clerk premium_user) sample_completion)
          (lit "sk-sample") (chat_request body_plain) with
  | Normal i => Some i
  | Throw _ => None
  end.

(** The serialization of [long_profile]. *)
Definition long_profile_text : jsstring :=
  lit "{" ++ dquote ++ lit "goal" ++ dquote ++ lit ":"
  ++ dquote ++ repeat 120%N 5000 ++ dquote ++ lit "}".

Definition body_null_messages : value :=
  VObject [ field "messages" VNull; field "system" (str "Be brief.") ].

Definition completion_payload : list (jsstring * value) :=
  [ field "id" (str "msg_1");
    field "usage" (VObject [ field "input_tokens" (VNumber (num_of_Z 12)) ]);
    field "role" (str "assistant") ].

Definition completion_with_usage : Claude.Response :=
  {| Claude.resp_status := 200;
     Claude.resp_text := [];
     Claude.resp_json := Normal (VObject completion_payload) |}.

(* ===================================================================== *)
(** * Properties *)
(* ===================================================================== *)

(** ** Strings, lists and completions *)

Lemma jseqb_eq a b : jseqb a b = true <-> a = b.
Proof.
  unfold jseqb. destruct (list_eq_dec N.eq_dec a b); split; congruence.
Qed.

Lemma jseqb_refl a : jseqb a a = true.
Proof. apply jseqb_eq. reflexivity. Qed.

Lemma jseqb_neq a b : a <> b -> jseqb a b = false.
Proof.
  intros H. destruct (jseqb a b) eqn:E; [apply jseqb_eq in E; contradiction | reflexivity].
Qed.

Lemma slice_prefix_length (s : jsstring) (n : Z) :
  (0 <= n <= Z.of_nat (length s))%Z ->
  Z.of_nat (length (slice s 0 n)) = n.
Proof.
  intros H. unfold slice, rel_index. cbn [Z.ltb Z.compare].
  destruct (n <? 0)%Z eqn:E; [apply Z.ltb_lt in E; lia |].
  rewrite length_firstn, length_skipn. lia.
Qed.

Lemma csequence_all {A} (l : list (completion A)) :
  (forall c, In c l -> exists a, c = Normal a) ->
  exists xs, csequence l = Normal xs.
Proof.
  induction l as [| c r IH]; intros H; cbn.
  - eexists; reflexivity.
  - destruct (H c (or_introl eq_refl)) as [a ->].
    destruct IH as [xs ->]; [intros; apply H; now right |].
    cbn. eexists; reflexivity.
Qed.

Lemma csequence_each {A} (l : list (completion A)) xs :
  csequence l = Normal xs ->
  forall c, In c l -> exists a, c = Normal a.
Proof.
  revert xs. induction l as [| c r IH]; intros xs H c' Hin; [destruct Hin |].
  cbn in H. destruct c as [a | m]; [| discriminate]. cbn in H.
  destruct (csequence r) as [ar | m] eqn:E; [| discriminate].
  destruct Hin as [<- | Hin]; [eexists; reflexivity |].
  eapply IH; eauto.
Qed.

(** ** Association lists and objects *)

Lemma assoc_In k l :
  In k (map fst l) -> exists v, assoc k l = Some v /\ In (k, v) l.
Proof.
  induction l as [| [k' v'] r IH]; cbn; [intros [] |].
  intros H. destruct (jseqb k k') eqn:E.
  - apply jseqb_eq in E. subst. eexists; split; [reflexivity | now left].
  - destruct H as [H | H]; [subst; rewrite jseqb_refl in E; discriminate |].
    destruct (IH H) as [v [-> Hin]]. eexists; split; [reflexivity | now right].
Qed.

Lemma assoc_app_l k l1 l2 :
  In k (map fst l1) -> assoc k (l1 ++ l2) = assoc k l1.
Proof.
  induction l1 as [| [k' v'] r IH]; cbn; [intros [] |].
  intros H. destruct (jseqb k k') eqn:E; [reflexivity |].
  destruct H as [H | H]; [subst; rewrite jseqb_refl in E; discriminate |].
  now apply IH.
Qed.

Lemma assoc_firstn k n l :
  In k (map fst (firstn n l)) ->
  exists v, assoc k l = Some v /\ In (k, v) (firstn n l).
Proof.
  intros H. destruct (assoc_In _ _ H) as [v [Ha Hin]].
  exists v. split; [| exact Hin].
  rewrite <- (firstn_skipn n l) at 1. rewrite assoc_app_l; assumption.
Qed.

Lemma obj_define_In ps k v kv :
  In kv (obj_define ps k v) -> In kv ps \/ kv = (k, v).
Proof.
  induction ps as [| [k' v'] r IH]; cbn.
  - intros [<- | []]. now right.
  - destruct (jseqb k k').
    + intros [<- | H]; [now right | left; now right].
    + intros [<- | H]; [left; now left |].
      destruct (IH H); [left; now right | now right].
Qed.

Lemma obj_define_length ps k v :
  (length (obj_define ps k v) <= S (length ps))%nat.
Proof.
  induction ps as [| [k' v'] r IH]; cbn; [lia |].
  destruct (jseqb k k'); cbn; lia.
Qed.

Lemma obj_define_assoc ps k v : assoc k (obj_define ps k v) = Some v.
Proof.
  induction ps as [| [k' v'] r IH]; cbn.
  - now rewrite jseqb_refl.
  - destruct (jseqb k k') eqn:E; cbn; [now rewrite jseqb_refl | now rewrite E].
Qed.

Lemma obj_define_assoc_other ps k v k' :
  k' <> k -> assoc k' (obj_define ps k v) = assoc k' ps.
Proof.
  intros Hne. induction ps as [| [k0 v0] r IH]; cbn.
  - now rewrite (jseqb_neq _ _ Hne).
  - destruct (jseqb k k0) eqn:E; cbn.
    + apply jseqb_eq in E. subst k0. now rewrite (jseqb_neq _ _ Hne).
    + now rewrite IH.
Qed.

Lemma obj_set_In ps k v kv :
  In kv (obj_set ps k v) -> In kv ps \/ kv = (k, v).
Proof.
  unfold obj_set. destruct (jseqb k (lit "__proto__")); [now left | apply obj_define_In].
Qed.

Lemma obj_set_length ps k v :
  (length (obj_set ps k v) <= S (length ps))%nat.
Proof.
  unfold obj_set. destruct (jseqb k (lit "__proto__")); [lia | apply obj_define_length].
Qed.

Lemma indexed_In {A} (l : list A) i kv :
  In kv (indexed i l) -> In (snd kv) l.
Proof.
  revert i. induction l as [| x r IH]; cbn; intros i; [intros [] |].
  intros [<- | H]; [now left | right; eapply IH; eauto].
Qed.

Lemma firstn_incl {A} n (l : list A) x : In x (firstn n l) -> In x l.
Proof.
  intros H. rewrite <- (firstn_skipn n l). apply in_or_app. now left.
Qed.

Lemma obj_define_fresh acc k v :
  ~ In k (map fst acc) -> obj_define acc k v = acc ++ [(k, v)].
Proof.
  induction acc as [| [k' v'] r IH]; cbn; intros H; [reflexivity |].
  rewrite jseqb_neq by (intros E; apply H; left; now subst).
  rewrite IH; [reflexivity |]. intros Hin. apply H. now right.
Qed.

Lemma NoDup_assoc ps k v :
  NoDup (map fst ps) -> In (k, v) ps -> assoc k ps = Some v.
Proof.
  induction ps as [| [k' v'] r IH]; cbn; intros Hnd Hin; [destruct Hin |].
  inversion Hnd as [| ? ? Hk Hr]; subst.
  destruct Hin as [H | H].
  - inversion H; subst. now rewrite jseqb_refl.
  - rewrite jseqb_neq; [now apply IH |].
    intros E. subst. apply Hk. apply in_map_iff. exists (k', v). auto.
Qed.

Lemma NoDup_firstn {A} n (l : list A) : NoDup l -> NoDup (firstn n l).
Proof.
  intros H. rewrite <- (firstn_skipn n l) in H. exact (NoDup_app_remove_r _ _ H).
Qed.

(** *** The object rebuilt by [reduce] *)

(** A property that already holds the value read from [obj] keeps it. *)
Lemma pick_keys_assoc_kept obj keys k : forall acc,
  assoc k acc = Some (get_own obj k) ->
  assoc k (fold_left (fun a k => obj_set a k (get_own obj k)) keys acc)
  = Some (get_own obj k).
Proof.
  induction keys as [| k0 r IH]; intros acc H; cbn [fold_left]; [exact H |].
  apply IH. unfold obj_set. destruct (jseqb k0 (lit "__proto__")); [exact H |].
  destruct (jseqb k k0) eqn:E.
  - apply jseqb_eq in E. subst. apply obj_define_assoc.
  - rewrite obj_define_assoc_other; [exact H |].
    intros ->. rewrite jseqb_refl in E. discriminate.
Qed.

(** Every key that is read, [__proto__] apart, ends as a property holding
    the value read. *)
Lemma pick_keys_assoc obj keys k : forall acc,
  In k keys -> k <> lit "__proto__" ->
  assoc k (fold_left (fun a k => obj_set a k (get_own obj k)) keys acc)
  = Some (get_own obj k).
Proof.
  induction keys as [| k0 r IH]; intros acc Hin Hp; [destruct Hin |].
  cbn [fold_left]. destruct (jseqb k k0) eqn:E.
  - apply jseqb_eq in E. subst k0. apply pick_keys_assoc_kept.
    unfold obj_set. rewrite (jseqb_neq _ _ Hp). apply obj_define_assoc.
  - destruct Hin as [-> | Hin]; [rewrite jseqb_refl in E; discriminate |].
    now apply IH.
Qed.

(** The assignment never creates a property [__proto__]. *)
Lemma pick_keys_no_proto obj keys : forall acc,
  assoc (lit "__proto__") acc = None ->
  assoc (lit "__proto__")
        (fold_left (fun a k => obj_set a k (get_own obj k)) keys acc) = None.
Proof.
  induction keys as [| k0 r IH]; intros acc H; cbn [fold_left]; [exact H |].
  apply IH. unfold obj_set. destruct (jseqb k0 (lit "__proto__")) eqn:E; [exact H |].
  rewrite obj_define_assoc_other; [exact H |].
  intros <-. rewrite jseqb_refl in E. discriminate.
Qed.

(** On properties of distinct keys, read in their order, the assignments
    rebuild the list of the properties, without [__proto__]. *)
Lemma pick_keys_filter obj es ps : forall acc,
  own_entries obj = Normal es ->
  NoDup (map fst es) ->
  incl ps es ->
  NoDup (map fst ps) ->
  (forall k, In k (map fst ps) -> ~ In k (map fst acc)) ->
  fold_left (fun a k => obj_set a k (get_own obj k)) (map fst ps) acc
  = acc ++ filter (fun kv => negb (jseqb (fst kv) (lit "__proto__"))) ps.
Proof.
  induction ps as [| [k v] r IH]; intros acc He H0 Hin Hnd Hdis;
    cbn [map fst fold_left filter].
  - now rewrite app_nil_r.
  - cbn [map fst] in Hnd. inversion Hnd as [| ? ? Hk Hr]; subst.
    assert (get_own obj k = v) as ->.
    { unfold get_own. rewrite He.
      rewrite (NoDup_assoc es k v H0); [reflexivity |]. apply Hin. now left. }
    assert (incl r es) as Hin' by (intros kv Hkv; apply Hin; now right).
    unfold obj_set at 2. destruct (jseqb k (lit "__proto__")) eqn:E; cbn [negb].
    + apply IH; auto. intros k' Hk'. apply Hdis. now right.
    + rewrite obj_define_fresh by (apply Hdis; now left).
      rewrite IH; [now rewrite <- app_assoc | exact He | exact H0 | exact Hin'
                  | exact Hr |].
      intros k' Hk'. rewrite map_app, in_app_iff. cbn. intros [H | [H | []]].
      * apply (Hdis k'); [now right | exact H].
      * subst. contradiction.
Qed.

(** ** The system prompt composer *)

Section Composer.

(** The host's rendering of numbers. *)
Variable nts : number -> jsstring.

(** An object whose property values all serialize, serializes to a
    string. *)
Lemma stringify_object_total ps :
  (forall kv, In kv ps -> exists r, SerializeJSONProperty nts (snd kv) = Normal r) ->
  exists out, JSON_stringify nts (VObject ps) = Normal (Some out).
Proof.
  intros H. unfold JSON_stringify. cbn [SerializeJSONProperty].
  destruct (csequence_all
              (map (fun kv => cbind (SerializeJSONProperty nts (snd kv))
                                    (fun p => Normal (fst kv, p))) ps)) as [xs ->].
  - intros c Hc. apply in_map_iff in Hc. destruct Hc as [kv [<- Hin]].
    destruct (H kv Hin) as [r ->]. cbn. eexists; reflexivity.
  - cbn. eexists; reflexivity.
Qed.

(** When a value serializes, so does the value of each of its own
    properties. *)
Lemma stringify_entries obj r es :
  JSON_stringify nts obj = Normal r ->
  own_entries obj = Normal es ->
  forall kv, In kv es -> exists r', SerializeJSONProperty nts (snd kv) = Normal r'.
Proof.
  unfold JSON_stringify.
  destruct obj; cbn [own_entries SerializeJSONProperty];
    intros Hs He; inversion He; subst; clear He; intros kv Hin;
    try (now destruct Hin).
  - apply indexed_In in Hin. apply in_map_iff in Hin.
    destruct Hin as [c [<- _]]. cbn. eexists; reflexivity.
  - apply indexed_In in Hin.
    destruct (csequence (map (SerializeJSONProperty nts) elems)) as [xs | m] eqn:E;
      [| discriminate].
    eapply csequence_each; [exact E |]. now apply in_map.
  - destruct (csequence (map (fun kv0 => cbind (SerializeJSONProperty nts (snd kv0))
                                (fun p => Normal (fst kv0, p))) es)) as [xs | m] eqn:E;
      [| discriminate].
    destruct (csequence_each _ _ E
                (cbind (SerializeJSONProperty nts (snd kv)) (fun p => Normal (fst kv, p))))
      as [a Ha].
    + apply in_map_iff. exists kv. split; [reflexivity | assumption].
    + destruct (SerializeJSONProperty nts (snd kv)) as [r' | m]; [| discriminate].
      eexists; reflexivity.
Qed.

Lemma pick_keys_spec obj keys acc kv :
  In kv (fold_left (fun a k => obj_set a k (get_own obj k)) keys acc) ->
  In kv acc \/ (In (fst kv) keys /\ snd kv = get_own obj (fst kv)).
Proof.
  revert acc. induction keys as [| k r IH]; cbn; intros acc H; [now left |].
  destruct (IH _ H) as [Hin | [Hk Hv]].
  - destruct (obj_set_In _ _ _ _ Hin) as [Ha | ->]; [now left |].
    right. cbn. split; [now left | reflexivity].
  - right. split; [now right | assumption].
Qed.

Lemma pick_keys_length obj keys acc :
  (length (fold_left (fun a k => obj_set a k (get_own obj k)) keys acc)
   <= length acc + length keys)%nat.
Proof.
  revert acc. induction keys as [| k r IH]; cbn; intros acc; [lia |].
  specialize (IH (obj_set acc k (get_own obj k))).
  pose proof (obj_set_length acc k (get_own obj k)). lia.
Qed.

(** The object rebuilt from the first 20 keys holds entries of the first
    20 own properties only. *)
Lemma pick_keys_first20 obj es :
  own_entries obj = Normal es ->
  incl (Claude.pick_keys obj (firstn 20 (map fst es))) (firstn 20 es)
  /\ (length (Claude.pick_keys obj (firstn 20 (map fst es))) <= 20)%nat.
Proof.
  intros He. split.
  - intros [k v] Hin. unfold Claude.pick_keys in Hin.
    destruct (pick_keys_spec _ _ _ _ Hin) as [[] | [Hk Hv]]. cbn [fst snd] in Hk, Hv.
    rewrite firstn_map in Hk.
    destruct (assoc_firstn _ _ _ Hk) as [v' [Ha Hin']].
    unfold get_own in Hv. rewrite He, Ha in Hv. now subst.
  - unfold Claude.pick_keys.
    pose proof (pick_keys_length obj (firstn 20 (map fst es)) []) as H.
    pose proof (firstn_le_length 20 (map fst es)). cbn [length] in H. lia.
Qed.

(** The result of [safeJSONString], case by case. *)
Lemma safeJSONString_cases obj :
  (exists s, JSON_stringify nts obj = Normal (Some s)
             /\ (Z.of_nat (length s) <= 4000)%Z
             /\ Claude.safeJSONString nts obj 4000 = s)
  \/ (exists s es out,
         JSON_stringify nts obj = Normal (Some s)
         /\ (4000 < Z.of_nat (length s))%Z
         /\ own_entries obj = Normal es
         /\ JSON_stringify nts (VObject (Claude.pick_keys obj (firstn 20 (map fst es))))
            = Normal (Some out)
         /\ Claude.safeJSONString nts obj 4000 =
            (if (Z.of_nat (length out) >? 4000)%Z
             then slice out 0 3997 ++ lit "..." else out))
  \/ ((JSON_stringify nts obj = Normal None \/ exists m, JSON_stringify nts obj = Throw m)
      /\ Claude.safeJSONString nts obj 4000 = lit "{}").
Proof.
  unfold Claude.safeJSONString.
  destruct (JSON_stringify nts obj) as [[s |] | m] eqn:Es; cbn [cbind the_string].
  - destruct (Z.of_nat (length s) <=? 4000)%Z eqn:El.
    + left. exists s. apply Z.leb_le in El. auto.
    + apply Z.leb_gt in El. right; left.
      destruct (own_entries obj) as [es | m] eqn:Ee.
      * unfold Object_keys. rewrite Ee. cbn [cbind].
        destruct (stringify_object_total
                    (Claude.pick_keys obj (firstn 20 (map fst es)))) as [out Ho].
        { intros kv Hin.
          destruct (pick_keys_first20 obj es Ee) as [Hincl _].
          apply Hincl in Hin. apply firstn_incl in Hin.
          eapply stringify_entries; eauto. }
        exists s, es, out. rewrite Ho. cbn [cbind the_string].
        repeat split; auto.
      * exfalso. destruct obj; cbn in Ee; try discriminate.
        unfold JSON_stringify in Es. cbn in Es.
        inversion Es; subst. cbn in El. lia.
  - right; right. split; [left; reflexivity | reflexivity].
  - right; right. split; [right; eexists; reflexivity | reflexivity].
Qed.

(** C5.  [safeJSONString] with its cap of 4000: the result never exceeds
    4000 code units; when the serialization of the whole argument fits in
    4000 units, it is the result; when it is longer, the result is the
    serialization of the object [sub] that the reduction builds from the
    first 20 own keys, cut after 3997 units and closed by three dots when
    it is itself longer than 4000, where [sub] has at most 20 entries, all
    taken among the first 20 own properties of the argument, holds each of
    these 20 keys but [__proto__] with the value the argument has for it,
    and, the keys of the argument being distinct, is the list of its first
    20 properties without [__proto__]; and when the serialization fails
    (it throws, or yields no string) the result is the text of the empty
    object. *)
Theorem C5_safeJSONString_capped (obj : value) :
  (Z.of_nat (length (Claude.safeJSONString nts obj 4000)) <= 4000)%Z
  /\ (forall s,
        JSON_stringify nts obj = Normal (Some s) ->
        (Z.of_nat (length s) <= 4000)%Z ->
        Claude.safeJSONString nts obj 4000 = s)
  /\ (forall s,
        JSON_stringify nts obj = Normal (Some s) ->
        (4000 < Z.of_nat (length s))%Z ->
        exists es sub out,
          own_entries obj = Normal es
          /\ sub = Claude.pick_keys obj (firstn 20 (map fst es))
          /\ incl sub (firstn 20 es)
          /\ (length sub <= 20)%nat
          /\ (forall k, In k (map fst (firstn 20 es)) -> k <> lit "__proto__" ->
                assoc k sub = assoc k es)
          /\ assoc (lit "__proto__") sub = None
          /\ (NoDup (map fst es) ->
              sub = filter (fun kv => negb (jseqb (fst kv) (lit "__proto__")))
                           (firstn 20 es))
          /\ JSON_stringify nts (VObject sub) = Normal (Some out)
          /\ Claude.safeJSONString nts obj 4000 =
             (if (Z.of_nat (length out) >? 4000)%Z
              then slice out 0 3997 ++ lit "..." else out))
  /\ (forall m, JSON_stringify nts obj = Throw m ->
        Claude.safeJSONString nts obj 4000 = lit "{}")
  /\ (JSON_stringify nts obj = Normal None ->
        Claude.safeJSONString nts obj 4000 = lit "{}").
Proof.
  destruct (safeJSONString_cases obj)
    as [[s [Hs [Hl Hr]]] | [[s [es [out [Hs [Hl [He [Ho Hr]]]]]]] | [Hf Hr]]].
  - split; [| split; [| split; [| split]]].
    + rewrite Hr. exact Hl.
    + intros s' Hs' _. rewrite Hs in Hs'. injection Hs' as <-. exact Hr.
    + intros s' Hs' Hl'. rewrite Hs in Hs'. injection Hs' as <-. lia.
    + intros m Hm. rewrite Hs in Hm. discriminate.
    + intros Hn. rewrite Hs in Hn. discriminate.
  - split; [| split; [| split; [| split]]].
    + rewrite Hr. destruct (Z.of_nat (length out) >? 4000)%Z eqn:E.
      * rewrite length_app, Nat2Z.inj_add, slice_prefix_length.
        -- cbn. lia.
        -- apply Z.gtb_gt in E. lia.
      * pose proof (Zgt_cases (Z.of_nat (length out)) 4000) as G.
        rewrite E in G. exact G.
    + intros s' Hs' Hl'. rewrite Hs in Hs'. injection Hs' as <-. lia.
    + intros s' Hs' Hl'.
      destruct (pick_keys_first20 obj es He) as [Hincl Hlen].
      exists es, (Claude.pick_keys obj (firstn 20 (map fst es))), out.
      split; [exact He |]. split; [reflexivity |].
      split; [exact Hincl |]. split; [exact Hlen |].
      split; [| split; [| split; [| split; [exact Ho | exact Hr]]]].
      * intros k Hk Hp. unfold Claude.pick_keys.
        rewrite pick_keys_assoc; [| now rewrite firstn_map | exact Hp].
        destruct (assoc_firstn _ _ _ Hk) as [v [Ha _]].
        unfold get_own. now rewrite He, Ha.
      * unfold Claude.pick_keys. now apply pick_keys_no_proto.
      * intros Hnd. unfold Claude.pick_keys. rewrite firstn_map.
        rewrite (pick_keys_filter obj es (firstn 20 es) []); [reflexivity | exact He
          | exact Hnd | intros kv; apply firstn_incl | | intros k _ []].
        rewrite <- firstn_map. now apply NoDup_firstn.
    + intros m Hm. rewrite Hs in Hm. discriminate.
    + intros Hn. rewrite Hs in Hn. discriminate.
  - split; [| split; [| split; [| split]]].
    + rewrite Hr. cbn. lia.
    + intros s Hs Hl. destruct Hf as [Hf | [m Hf]]; rewrite Hs in Hf; discriminate.
    + intros s Hs Hl. destruct Hf as [Hf | [m Hf]]; rewrite Hs in Hf; discriminate.
    + intros; exact Hr.
    + intros; exact Hr.
Qed.

(** C6.  [appendProfileToSystem] on a base string: a profile that is
    [null] or whose type is not [object] (an absent profile has the type
    [undefined]) leaves the base unchanged; an object yields the base, a
    line break and the block, which holds the marker text and the
    [safeJSONString] serialization of the profile. *)
Theorem C6_appendProfileToSystem (base : jsstring) (profile : value) :
  (profile = VNull \/ typeof profile <> lit "object" ->
   Claude.appendProfileToSystem nts (VString base) profile = Normal (VString base))
  /\ (profile <> VNull /\ typeof profile = lit "object" ->
      Claude.appendProfileToSystem nts (VString base) profile =
      Normal (VString (base ++ nl ++
                       (Claude.block_head
                        ++ Claude.safeJSONString nts profile 4000
                        ++ Claude.block_tail))))
  /\ (exists rest,
        Claude.block_head =
        nl ++ lit "---" ++ nl ++ lit "PROFIL UTILISATEUR" ++ rest).
Proof.
  split; [| split].
  - intros [-> | H]; [reflexivity |].
    destruct profile; try (exfalso; apply H; reflexivity);
      unfold Claude.appendProfileToSystem;
      match goal with
      | |- context [jseqb ?a ?b] =>
        replace (jseqb a b) with false by (vm_compute; reflexivity)
      end;
      cbn [negb]; rewrite orb_true_r; reflexivity.
  - intros [Hn Ht].
    destruct profile; try (vm_compute in Ht; discriminate);
      try (exfalso; apply Hn; reflexivity); reflexivity.
  - eexists. vm_compute. reflexivity.
Qed.

End Composer.

(** A profile of one long property: the fallback serialization is still
    too long, and the result is cut to 4000 units ending in three dots. *)
Example safeJSONString_long_profile :
  length (Claude.safeJSONString Number_toString_exact long_profile 4000) = 4000%nat
  /\ endsWith (Claude.safeJSONString Number_toString_exact long_profile 4000)
              (lit "...") = true.
Proof. split; vm_compute; reflexivity. Qed.

(** A value that cannot be serialized. *)
Example safeJSONString_bigint :
  Claude.safeJSONString Number_toString_exact
    (VObject [ field "n" (VBigInt 1) ]) 4000 = lit "{}".
Proof. reflexivity. Qed.

(** The prompt of a request that carries [profile: {goal: "retirement"}]. *)
Example prompt_with_profile :
  exists prompt,
    Claude.appendProfileToSystem Number_toString_exact (str "Base.")
      (VObject [ field "goal" (str "retirement") ]) = Normal (VString prompt)
    /\ includes prompt (lit "PROFIL UTILISATEUR") = true
    /\ includes prompt (lit "{" ++ dquote ++ lit "goal" ++ dquote ++ lit ":"
                         ++ dquote ++ lit "retirement" ++ dquote ++ lit "}") = true.
Proof. eexists. split; [reflexivity | split; vm_compute; reflexivity]. Qed.

(** ** JSON values *)

Section ValueInduction.

Variable P : value -> Prop.
Hypothesis P_undefined : P VUndefined.
Hypothesis P_null : P VNull.
Hypothesis P_bool : forall b, P (VBool b).
Hypothesis P_number : forall x, P (VNumber x).
Hypothesis P_bigint : forall z, P (VBigInt z).
Hypothesis P_string : forall s, P (VString s).
Hypothesis P_array : forall l, Forall P l -> P (VArray l).
Hypothesis P_object : forall ps, Forall (fun kv => P (snd kv)) ps -> P (VObject ps).

(** Induction over values, through the lists of elements and of
    properties. *)
Lemma value_nested_ind : forall v, P v.
Proof.
  fix IH 1. intros [ | | b | x | z | s | l | ps ].
  - exact P_undefined.
  - exact P_null.
  - apply P_bool.
  - apply P_number.
  - apply P_bigint.
  - apply P_string.
  - apply P_array. induction l as [| x r IHl]; constructor; [apply IH | exact IHl].
  - apply P_object.
    induction ps as [| [k x] r IHl]; constructor; [apply IH | exact IHl].
Qed.

End ValueInduction.

Section Intake.

Variable nts : number -> jsstring.
Variable now : jsstring.

(** [JSON.stringify] does not throw on a value without BigInt. *)
Lemma bigint_free_serializes v :
  bigint_free v = true -> exists r, SerializeJSONProperty nts v = Normal r.
Proof.
  induction v as [ | | b | x | z | s | l IHl | ps IHps ] using value_nested_ind;
    cbn [bigint_free SerializeJSONProperty]; intros H;
    try discriminate; try (eexists; reflexivity).
  - destruct (csequence_all (map (SerializeJSONProperty nts) l)) as [xs ->];
      [| cbn; eexists; reflexivity].
    intros c Hc. apply in_map_iff in Hc. destruct Hc as [v [<- Hin]].
    rewrite Forall_forall in IHl. apply IHl; [assumption |].
    rewrite forallb_forall in H. now apply H.
  - destruct (csequence_all
                (map (fun kv => cbind (SerializeJSONProperty nts (snd kv))
                                      (fun p => Normal (fst kv, p))) ps)) as [xs ->];
      [| cbn; eexists; reflexivity].
    intros c Hc. apply in_map_iff in Hc. destruct Hc as [kv [<- Hin]].
    rewrite Forall_forall in IHps. destruct (IHps kv Hin) as [r ->].
    + rewrite forallb_forall in H. now apply H.
    + cbn. eexists; reflexivity.
Qed.

(** The POST branch of the handler. *)
Lemma intake_post a b :
  Profile.handler nts now (post a b) =
  if negb (truthy (js_or b (VObject [])))
     || negb (jseqb (typeof (js_or b (VObject []))) (lit "object"))
  then Profile.invalid_payload
  else match JSON_stringify nts (js_or b (VObject [])) with
       | Normal _ => (Profile.acknowledged now)
       | Throw m =>
         Profile.json_reply 500 [ field "error" (str "Internal Server Error");
                                  field "message" (VString m) ]
       end.
Proof.
  unfold Profile.handler, post. cbn [method body].
  change (jseqb (lit "POST") (lit "OPTIONS")) with false.
  change (jseqb (lit "POST") (lit "POST")) with true.
  cbn [negb].
  destruct (negb (truthy (js_or b (VObject [])))
            || negb (jseqb (typeof (js_or b (VObject []))) (lit "object")));
    [reflexivity |].
  destruct (JSON_stringify nts (js_or b (VObject []))); reflexivity.
Qed.

Lemma intake_falsy a b :
  truthy b = false -> Profile.handler nts now (post a b) = (Profile.acknowledged now).
Proof.
  intros H. rewrite intake_post. unfold js_or. rewrite H. reflexivity.
Qed.

Lemma typeof_object_eqb v :
  jseqb (typeof v) (lit "object") = true <-> typeof v = lit "object".
Proof. apply jseqb_eq. Qed.

Lemma intake_truthy a b :
  truthy b = true ->
  Profile.handler nts now (post a b) =
  if jseqb (typeof b) (lit "object")
  then match JSON_stringify nts b with
       | Normal _ => (Profile.acknowledged now)
       | Throw m =>
         Profile.json_reply 500 [ field "error" (str "Internal Server Error");
                                  field "message" (VString m) ]
       end
  else Profile.invalid_payload.
Proof.
  intros H. rewrite intake_post. unfold js_or. rewrite H. cbn iota.
  rewrite H. cbn [negb orb].
  destruct (jseqb (typeof b) (lit "object")); reflexivity.
Qed.

(** C1, as the code has it.  A POST whose body is truthy and not of type
    [object] is Profile.invalid_payload with status 400 and the error "Invalid profile
    payload"; a POST whose parsed body is falsy (absent, [null], the empty
    string, zero, [false]) or of type [object] is acknowledged with status
    200, [ok: true] and the timestamp of the clock. *)
Theorem C1_profile_intake (a : option jsstring) (b : value) :
  (truthy b = true -> typeof b <> lit "object" ->
   Profile.handler nts now (post a b) = Profile.invalid_payload)
  /\ (bigint_free b = true ->
      truthy b = false \/ typeof b = lit "object" ->
      Profile.handler nts now (post a b) = (Profile.acknowledged now)).
Proof.
  split.
  - intros Ht Hn. rewrite intake_truthy by assumption.
    rewrite jseqb_neq by assumption. reflexivity.
  - intros Hj H. destruct (truthy b) eqn:Ht.
    + destruct H as [H | H]; [discriminate |].
      rewrite intake_truthy by assumption. rewrite H, jseqb_refl.
      destruct (bigint_free_serializes b Hj) as [r Hr].
      unfold JSON_stringify. rewrite Hr. reflexivity.
    + now apply intake_falsy.
Qed.

(** C10.  A falsy body is replaced by the empty object and acknowledged
    with status 200 and [ok: true]; the status is 400 exactly when the body
    is truthy and its type is not [object]. *)
Theorem C10_falsy_body_acknowledged (a : option jsstring) (b : value) :
  (truthy b = false ->
   js_or b (VObject []) = VObject []
   /\ Profile.handler nts now (post a b) = (Profile.acknowledged now)
   /\ status (Profile.acknowledged now) = 200%Z
   /\ payload (Profile.acknowledged now) = Some (VObject [ field "ok" (VBool true);
                                         field "receivedAt" (VString now) ]))
  /\ (status (Profile.handler nts now (post a b)) = 400%Z
      <-> truthy b = true /\ typeof b <> lit "object").
Proof.
  split.
  - intros H. repeat split.
    + unfold js_or. now rewrite H.
    + now apply intake_falsy.
  - destruct (truthy b) eqn:Ht.
    + rewrite intake_truthy by assumption.
      destruct (jseqb (typeof b) (lit "object")) eqn:E.
      * apply jseqb_eq in E. split.
        -- destruct (JSON_stringify nts b); cbn; discriminate.
        -- intros [_ H]. contradiction.
      * split; [| reflexivity]. intros _. split; [reflexivity |].
        intros H. rewrite H, jseqb_refl in E. discriminate.
    + rewrite intake_falsy by assumption. split; [cbn; discriminate |].
      intros [H _]. discriminate.
Qed.

End Intake.

(** C1, as stated, fails on an absent body: the handler substitutes the
    empty object and answers 200, not 400. *)
Lemma C1_absent_body_is_acknowledged :
  typeof VUndefined = lit "undefined"
  /\ Profile.handler Number_toString_exact sample_now (post None VUndefined)
     = Profile.acknowledged sample_now
  /\ status (Profile.acknowledged sample_now) = 200%Z.
Proof. repeat split. Qed.

(** The two bodies of the specification's test of the endpoint. *)
Example intake_of_empty_object :
  Profile.handler Number_toString_exact sample_now (post None (VObject []))
  = Profile.acknowledged sample_now.
Proof. reflexivity. Qed.

Example intake_of_string :
  Profile.handler Number_toString_exact sample_now (post None (str "not an object"))
  = Profile.invalid_payload.
Proof. reflexivity. Qed.

(** ** User tier *)

Lemma get_field_or_empty m k :
  get_prop (js_or m (VObject [])) k = get_prop m k.
Proof.
  unfold js_or. destruct (truthy m) eqn:E; [reflexivity |].
  destruct m; try reflexivity. discriminate.
Qed.

(** C2, as the code has it.  The tier of a user record is the [tier] field
    of the private metadata when that field is truthy, else the [tier]
    field of the public metadata when truthy, else [beta] when the primary
    e-mail address ends with one of the two domains or the public
    [betaAccess] field is truthy, else [free]. *)
Theorem C2_getUserTier (u : Claude.User) :
  let priv := get_field (Claude.privateMetadata u) "tier" in
  let pub := get_field (Claude.publicMetadata u) "tier" in
  let beta := get_field (Claude.publicMetadata u) "betaAccess" in
  let email := match Claude.primaryEmailAddress u with
               | Some e => e
               | None => []
               end in
  (truthy priv = true -> Claude.getUserTier u = priv)
  /\ (truthy priv = false -> truthy pub = true -> Claude.getUserTier u = pub)
  /\ (truthy priv = false -> truthy pub = false ->
      endsWith email (lit "@atticusconseil.com") = true
      \/ endsWith email (lit "@atticus.com") = true
      \/ truthy beta = true ->
      Claude.getUserTier u = str "beta")
  /\ (truthy priv = false -> truthy pub = false ->
      endsWith email (lit "@atticusconseil.com") = false ->
      endsWith email (lit "@atticus.com") = false ->
      truthy beta = false ->
      Claude.getUserTier u = str "free").
Proof.
  cbv zeta. unfold Claude.getUserTier, get_field.
  rewrite !get_field_or_empty.
  destruct (truthy (get_prop (Claude.privateMetadata u) (lit "tier"))) eqn:Ep;
  destruct (truthy (get_prop (Claude.publicMetadata u) (lit "tier"))) eqn:Eq;
    repeat split; try discriminate; try reflexivity.
  - intros _ _ [H | [H | H]]; rewrite H; rewrite ?orb_true_r; reflexivity.
  - intros _ _ H1 H2 H3. rewrite H1, H2, H3. reflexivity.
Qed.

(** C2, as stated, fails on a [tier] field that is present and falsy: the
    empty private tier is passed over and the public one is returned. *)
Lemma C2_empty_private_tier_is_skipped :
  assoc (lit "tier") [ field "tier" (str "") ] = Some (VString [])
  /\ Claude.getUserTier
       (sample_user (VObject [ field "tier" (str "") ])
                    (VObject [ field "tier" (str "premium") ]))
     = str "premium".
Proof. split; reflexivity. Qed.

Example tier_of_private_metadata :
  Claude.getUserTier premium_user = str "premium".
Proof. reflexivity. Qed.

Example tier_of_staff_address :
  Claude.getUserTier
    {| Claude.id := lit "user_2";
       Claude.firstName := None;
       Claude.primaryEmailAddress := Some (lit "lea@atticus.com");
       Claude.publicMetadata := VNull;
       Claude.privateMetadata := VNull |}
  = str "beta".
Proof. reflexivity. Qed.

Example tier_by_default :
  Claude.getUserTier (sample_user (VObject []) (VObject [])) = str "free".
Proof. reflexivity. Qed.

(** ** Usage limiter *)

Section Limiter.

Variable nts : number -> jsstring.
Variable userId : jsstring.

Lemma checkUsageLimit_free :
  Claude.checkUsageLimit nts userId (str "free")
  = Claude.allowed_with (VNumber (num_of_Z 12)).
Proof. reflexivity. Qed.

Lemma checkUsageLimit_beta :
  Claude.checkUsageLimit nts userId (str "beta")
  = Claude.allowed_with (VNumber (num_of_Z 25)).
Proof. reflexivity. Qed.

Lemma checkUsageLimit_premium :
  Claude.checkUsageLimit nts userId (str "premium")
  = Claude.allowed_with (VNumber (num_of_Z 25)).
Proof. reflexivity. Qed.

(** A key that is neither in the table nor a member of [Object.prototype]
    is refused. *)
Lemma checkUsageLimit_unknown key :
  Claude.find_tier key Claude.TIER_CONFIG = None ->
  existsb (jseqb key) Claude.Object_prototype_keys = false ->
  Claude.checkUsageLimit nts userId (VString key)
  = VObject [ field "allowed" (VBool false);
              field "reason" (str "Invalid user tier") ].
Proof.
  intros H1 H2. unfold Claude.checkUsageLimit, Claude.TIER_CONFIG_get.
  cbn [ToString]. rewrite H1, H2. reflexivity.
Qed.

(** C3, the code at the tier string [constructor]: it is not a key of the
    tier table, yet the lookup finds [Object.prototype.constructor], the
    check of the configuration passes and the request is allowed with an
    undefined limit. *)
Theorem C3_inherited_key_is_allowed :
  Claude.find_tier (lit "constructor") Claude.TIER_CONFIG = None
  /\ Claude.checkUsageLimit nts userId (str "constructor")
     = Claude.allowed_with VUndefined.
Proof. split; reflexivity. Qed.

End Limiter.

(** ** The authentication resolver *)

Section Resolver.

Variable b64 : jsstring -> jsstring.
Variable clerk : Claude.Clerk.
Variable token : jsstring.

Lemma nonempty_true s : s <> [] -> Claude.nonempty s = true.
Proof. destruct s; [contradiction | reflexivity]. Qed.

(** The direct lookup makes one call, for the raw token, whatever its
    answer. *)
Lemma directLookup_calls st :
  Claude.calls (snd (Claude.directLookup clerk token st))
  = Claude.calls st ++ [Claude.GetUser token].
Proof.
  unfold Claude.directLookup, Claude.assign_getUser, Claude.bind, Claude.call,
    Claude.set_user, Claude.ret.
  destruct (Claude.users_getUser clerk token); reflexivity.
Qed.

Lemma caught_directLookup_calls st :
  Claude.calls (snd (Claude.try_catch (Claude.directLookup clerk token)
                       (fun _ => Claude.ret tt) st))
  = Claude.calls st ++ [Claude.GetUser token].
Proof.
  unfold Claude.try_catch. rewrite <- directLookup_calls.
  destruct (Claude.directLookup clerk token st) as [[[] | m] st']; reflexivity.
Qed.

(** The composite strategy when the decoded text has its two parts. *)
Lemma base64Composite_lookup st :
  let decoded := b64 token in
  let email := nth 0 (split decoded colon) [] in
  let userId := nth 1 (split decoded colon) [] in
  includes decoded (lit ":") = true -> email <> [] -> userId <> [] ->
  (Claude.email_matches (Claude.users_getUser clerk userId) email = true ->
   exists st',
     Claude.base64Composite b64 clerk token st = (Normal tt, st')
     /\ Claude.calls st' = Claude.calls st ++ [Claude.GetUser userId])
  /\ (Claude.email_matches (Claude.users_getUser clerk userId) email = false ->
      exists m st',
        Claude.base64Composite b64 clerk token st = (Throw m, st')
        /\ Claude.calls st' = Claude.calls st ++ [Claude.GetUser userId]).
Proof.
  intros decoded email userId Hc He Hu.
  unfold Claude.base64Composite. fold decoded. rewrite Hc.
  fold email userId.
  rewrite (nonempty_true _ He), (nonempty_true _ Hu). cbn [andb].
  unfold Claude.assign_getUser, Claude.bind, Claude.call, Claude.set_user,
    Claude.ret, Claude.throw, Claude.email_matches.
  destruct (Claude.users_getUser clerk userId) as [[u |] | m]; cbn.
  - destruct (Claude.primaryEmailAddress u) as [e |]; cbn.
    + destruct (jseqb e email); split; intros H; try discriminate;
        repeat eexists.
    + split; intros H; try discriminate; repeat eexists.
  - split; intros H; try discriminate; repeat eexists.
  - split; intros H; try discriminate; repeat eexists.
Qed.

(** The composite strategy when a part is missing: nothing happens. *)
Lemma base64Composite_idle st :
  let decoded := b64 token in
  let email := nth 0 (split decoded colon) [] in
  let userId := nth 1 (split decoded colon) [] in
  includes decoded (lit ":") = false \/ email = [] \/ userId = [] ->
  Claude.base64Composite b64 clerk token st = (Normal tt, st).
Proof.
  intros decoded email userId H.
  unfold Claude.base64Composite. fold decoded.
  destruct (includes decoded (lit ":")); [| reflexivity].
  fold email userId.
  destruct H as [H | [H | H]]; [discriminate | |]; rewrite H; cbn [Claude.nonempty andb].
  - reflexivity.
  - rewrite andb_false_r. reflexivity.
Qed.

(** C4, as the code has it.  The fallback runs only after the session
    lookup and the token verification have both thrown.  A token with a
    colon or of at most 20 units goes to the lookup of the raw token.  A
    longer token without colon is decoded: when the decoded text holds a
    colon and both its first part (the e-mail) and its second part (the
    user identifier) are non-empty, the user is looked up by that
    identifier, and unless the answer is a user with that primary e-mail
    the raw token is looked up next; when the decoded text holds no colon
    or one of the two parts is empty, no lookup is made. *)
Theorem C4_fallback_chain (st : Claude.AuthState) :
  (forall st1,
      Claude.sessionLookup clerk token st = (Normal tt, st1) ->
      Claude.resolveUser b64 clerk token st = (Normal tt, st1))
  /\ (forall m st1 st2,
      Claude.sessionLookup clerk token st = (Throw m, st1) ->
      Claude.tokenLookup clerk token st1 = (Normal tt, st2) ->
      Claude.resolveUser b64 clerk token st = (Normal tt, st2))
  /\ (forall m st1 m' st2,
      Claude.sessionLookup clerk token st = (Throw m, st1) ->
      Claude.tokenLookup clerk token st1 = (Throw m', st2) ->
      Claude.resolveUser b64 clerk token st = Claude.fallback b64 clerk token st2)
  /\ (includes token (lit ":") = true \/ (length token <= 20)%nat ->
      Claude.calls (snd (Claude.fallback b64 clerk token st))
      = Claude.calls st ++ [Claude.GetUser token])
  /\ (includes token (lit ":") = false -> (20 < length token)%nat ->
      let decoded := b64 token in
      let email := nth 0 (split decoded colon) [] in
      let userId := nth 1 (split decoded colon) [] in
      (includes decoded (lit ":") = true -> email <> [] -> userId <> [] ->
       Claude.calls (snd (Claude.fallback b64 clerk token st))
       = Claude.calls st ++
         Claude.GetUser userId ::
         (if Claude.email_matches (Claude.users_getUser clerk userId) email
          then [] else [Claude.GetUser token]))
      /\ (includes decoded (lit ":") = false \/ email = [] \/ userId = [] ->
          Claude.fallback b64 clerk token st = (Normal tt, st))).
Proof.
  repeat apply conj.
  - intros st1 H. unfold Claude.resolveUser, Claude.try_catch. now rewrite H.
  - intros m st1 st2 H1 H2.
    unfold Claude.resolveUser, Claude.jwtVerification, Claude.try_catch.
    now rewrite H1, H2.
  - intros m st1 m' st2 H1 H2.
    unfold Claude.resolveUser, Claude.jwtVerification, Claude.try_catch at 1 2.
    now rewrite H1, H2.
  - intros H. unfold Claude.fallback.
    assert (negb (includes token (lit ":")) && (20 <? length token)%nat = false) as ->.
    { destruct H as [-> | H]; [reflexivity |].
      apply andb_false_iff. right. apply Nat.ltb_ge. exact H. }
    apply caught_directLookup_calls.
  - intros Hc Hl decoded email userId.
    assert (negb (includes token (lit ":")) && (20 <? length token)%nat = true) as Hg.
    { rewrite Hc. apply Nat.ltb_lt in Hl. now rewrite Hl. }
    split.
    + intros Hd He Hu.
      destruct (base64Composite_lookup st Hd He Hu) as [Hyes Hno].
      fold decoded email userId in Hyes, Hno.
      unfold Claude.fallback. rewrite Hg. unfold Claude.try_catch at 1 2.
      destruct (Claude.email_matches (Claude.users_getUser clerk userId) email).
      * destruct (Hyes eq_refl) as [st' [-> Hcalls]]. cbn [snd].
        rewrite Hcalls. reflexivity.
      * destruct (Hno eq_refl) as [m [st' [-> Hcalls]]].
        pose proof (directLookup_calls st') as Hd'.
        destruct (Claude.directLookup clerk token st') as [[[] | m'] st''];
          cbn beta iota delta [snd Claude.ret] in *;
          rewrite Hd', Hcalls, <- app_assoc; reflexivity.
    + intros H. unfold Claude.fallback. rewrite Hg.
      unfold Claude.try_catch.
      now rewrite (base64Composite_idle st H).
Qed.

End Resolver.

(** C4, as stated, fails on a token whose decoded text holds a colon after
    an empty e-mail part: no user is fetched, neither by the decoded
    identifier nor by the raw token, and the request is refused. *)
Lemma C4_empty_email_makes_no_lookup :
  includes token_without_email (lit ":") = false
  /\ (20 <? length token_without_email)%nat = true
  /\ includes (base64_utf8 token_without_email) (lit ":") = true
  /\ Claude.authenticateUser Number_toString_exact base64_utf8 users_clerk
       (post (Some (lit "Bearer " ++ token_without_email)) VUndefined)
     = (Claude.AuthError (lit "Invalid authentication token") 401,
        [ Claude.GetSession token_without_email;
          Claude.VerifyToken token_without_email ]).
Proof. repeat split. Qed.

(** The chain on a well-formed composite token whose e-mail does not
    match: the decoded identifier, then the raw token. *)
Example composite_mismatch_trace :
  snd (Claude.authenticateUser Number_toString_exact base64_utf8 users_clerk
         (post (Some (lit "Bearer " ++ token_of_eve)) VUndefined))
  = [ Claude.GetSession token_of_eve; Claude.VerifyToken token_of_eve;
      Claude.GetUser (lit "user_1"); Claude.GetUser token_of_eve ].
Proof. reflexivity. Qed.

(** The variable [user] is assigned before the e-mail is compared: when
    the comparison fails and the lookup of the raw token throws, the user
    fetched by the decoded identifier stays and is authenticated. *)
Example mismatched_user_is_kept :
  let ada := sample_user (VObject []) (VObject []) in
  Claude.authenticateUser Number_toString_exact base64_utf8 (session_clerk ada)
    (post (Some (lit "Bearer " ++ token_of_eve)) VUndefined)
  = (Claude.AuthSuccess ada (str "free") (lit "user_1"),
     [ Claude.GetSession token_of_eve; Claude.VerifyToken token_of_eve;
       Claude.GetUser (lit "user_1"); Claude.GetUser token_of_eve ]).
Proof. reflexivity. Qed.

(** ** The calls of the resolver *)

Lemma quiet_ret {A} (a : A) : Claude.quiet (Claude.ret a).
Proof. intros st H. exact H. Qed.

Lemma quiet_throw {A} e : Claude.quiet (@Claude.throw A e).
Proof. intros st H. exact H. Qed.

Lemma quiet_set_user u : Claude.quiet (Claude.set_user u).
Proof. intros st H. exact H. Qed.

Lemma quiet_call {A} c (r : completion A) :
  Claude.is_fetch c = false -> Claude.quiet (Claude.call c r).
Proof.
  intros Hc st H. cbn. rewrite forallb_app, H. cbn. now rewrite Hc.
Qed.

Lemma quiet_bind {A B} (m : Claude.M A) (f : A -> Claude.M B) :
  Claude.quiet m -> (forall a, Claude.quiet (f a)) -> Claude.quiet (Claude.bind m f).
Proof.
  intros Hm Hf st H. unfold Claude.bind. specialize (Hm st H).
  destruct (m st) as [[a | e] st']; cbn [snd] in *; [now apply Hf | exact Hm].
Qed.

Lemma quiet_try_catch {A} (m : Claude.M A) (h : jsstring -> Claude.M A) :
  Claude.quiet m -> (forall e, Claude.quiet (h e)) ->
  Claude.quiet (Claude.try_catch m h).
Proof.
  intros Hm Hh st H. unfold Claude.try_catch. specialize (Hm st H).
  destruct (m st) as [[a | e] st']; cbn [snd] in *; [exact Hm | now apply Hh].
Qed.

Ltac quiet_steps :=
  repeat first
    [ apply quiet_ret
    | apply quiet_throw
    | apply quiet_set_user
    | apply quiet_call; reflexivity
    | apply quiet_bind; [| intros ?]
    | apply quiet_try_catch; [| intros ?]
    | match goal with
      | |- Claude.quiet (match ?x with _ => _ end) => destruct x
      end ].

Lemma quiet_resolveUser b64 clerk token :
  Claude.quiet (Claude.resolveUser b64 clerk token).
Proof.
  unfold Claude.resolveUser, Claude.sessionLookup, Claude.jwtVerification,
    Claude.tokenLookup, Claude.fallback, Claude.base64Composite,
    Claude.directLookup, Claude.assign_getUser, Claude.getSession, Claude.verify.
  quiet_steps.
Qed.

(** The resolver calls the identity provider only. *)
Lemma authenticateUser_no_fetch nts b64 clerk req init :
  ~ In (Claude.Fetch init) (snd (Claude.authenticateUser nts b64 clerk req)).
Proof.
  assert (forallb (fun c => negb (Claude.is_fetch c))
            (snd (Claude.authenticateUser nts b64 clerk req)) = true) as H.
  { unfold Claude.authenticateUser.
    destruct (authorization req) as [h |]; [| reflexivity].
    destruct (negb (Claude.nonempty h) || negb (startsWith h (lit "Bearer ")));
      [reflexivity |].
    pose proof (quiet_resolveUser b64 clerk (slice_from h 7)
                  {| Claude.user := None; Claude.calls := [] |} eq_refl) as Hq.
    destruct (Claude.resolveUser b64 clerk (slice_from h 7) _) as [[[] | m] st];
      cbn [snd] in *; [| exact Hq].
    destruct (Claude.user st) as [u |]; [| exact Hq].
    cbv zeta. destruct (Claude.authenticated_log nts u _); exact Hq. }
  intros Hin. rewrite forallb_forall in H. specialize (H _ Hin). discriminate.
Qed.

(** A successful resolution carries the tier derived from the user record
    and the identifier of that record. *)
Lemma authenticateUser_success nts b64 clerk req u tier uid cs :
  Claude.authenticateUser nts b64 clerk req = (Claude.AuthSuccess u tier uid, cs) ->
  tier = Claude.getUserTier u /\ uid = Claude.id u.
Proof.
  unfold Claude.authenticateUser.
  destruct (authorization req) as [h |]; [| discriminate].
  destruct (negb (Claude.nonempty h) || negb (startsWith h (lit "Bearer ")));
    [discriminate |].
  destruct (Claude.resolveUser b64 clerk (slice_from h 7) _) as [[[] | m] st];
    [| discriminate].
  destruct (Claude.user st) as [u' |]; [| discriminate].
  cbv zeta. destruct (Claude.authenticated_log nts u' _); [| discriminate].
  intros H. inversion H; subst. split; reflexivity.
Qed.

(** ** The chat proxy *)

Section Proxy.

Variable nts : number -> jsstring.
Variable b64 : jsstring -> jsstring.
Variable env : Claude.Env.

(** When the handler has called the LLM provider, the user was resolved,
    the request was built, and the reply is what [relay] makes of the
    response. *)
Lemma handler_fetch req init :
  In (Claude.Fetch init) (snd (Claude.handler nts b64 env req)) ->
  exists u tier uid cs,
    Claude.authenticateUser nts b64 (Claude.clerkClient env) req
    = (Claude.AuthSuccess u tier uid, cs)
    /\ fst (Claude.handler nts b64 env req)
       = match cbind (Claude.fetch env init)
                     (fun resp => Claude.relay nts resp tier uid) with
         | Normal r => r
         | Throw _ => Claude.internal_error
         end.
Proof.
  unfold Claude.handler.
  destruct (jseqb (method req) (lit "OPTIONS")); [intros [] |].
  destruct (negb (jseqb (method req) (lit "POST"))); [intros [] |].
  pose proof (authenticateUser_no_fetch nts b64 (Claude.clerkClient env) req init) as Hq.
  destruct (Claude.authenticateUser nts b64 (Claude.clerkClient env) req)
    as [[error code | u tier uid] cs]; cbn [snd] in Hq.
  - intros H. contradiction.
  - destruct (negb (truthy (get_field (Claude.checkUsageLimit nts uid tier) "allowed")));
      [intros H; contradiction |].
    destruct (Claude.CLAUDE_API_KEY env) as [[| k0 k'] |];
      try (intros H; contradiction).
    unfold Claude.proxy.
    destruct (Claude.build_request nts env (k0 :: k') req) as [init' | m].
    + intros H.
      assert (init' = init) as ->.
      { destruct (cbind (Claude.fetch env init') _); cbn [snd] in H;
          apply in_app_or in H; destruct H as [H | [H | []]];
          try contradiction; now inversion H. }
      exists u, tier, uid, cs. split; [reflexivity |].
      destruct (cbind (Claude.fetch env init) _); reflexivity.
    + cbn [snd]. rewrite app_nil_r. intros H. contradiction.
Qed.

(** C7.  When the LLM provider answers the call of the handler with a
    status outside 200-299, the reply has status 500 and the error
    "Internal server error" if that status is at least 500, and else the
    status of the provider and the error "API request failed".  The
    payload has that one field: nothing of the body of the provider's
    response is in it. *)
Theorem C7_provider_failure_is_generic req init resp :
  In (Claude.Fetch init) (snd (Claude.handler nts b64 env req)) ->
  Claude.fetch env init = Normal resp ->
  Claude.ok resp = false ->
  fst (Claude.handler nts b64 env req)
  = Claude.json_reply
      (if (Claude.resp_status resp >=? 500)%Z then 500 else Claude.resp_status resp)
      [ field "error"
          (if (Claude.resp_status resp >=? 500)%Z
           then str "Internal server error"
           else str "API request failed") ].
Proof.
  intros Hin Hf Hok.
  destruct (handler_fetch req init Hin) as [u [tier [uid [cs [_ ->]]]]].
  rewrite Hf. cbn [cbind]. unfold Claude.relay. rewrite Hok. reflexivity.
Qed.

(** The request sent to the provider does not depend on the [userTier]
    field of the body. *)
Lemma build_request_ignores_userTier key m a b1 b2 :
  (forall k, k <> lit "userTier" -> get_prop b1 k = get_prop b2 k) ->
  Claude.build_request nts env key {| method := m; authorization := a; body := b1 |}
  = Claude.build_request nts env key {| method := m; authorization := a; body := b2 |}.
Proof.
  intros H. unfold Claude.build_request, get_field. cbn [body].
  rewrite !get_field_or_empty.
  rewrite !(H (lit "messages")), !(H (lit "model")), !(H (lit "max_tokens")),
    !(H (lit "profile")), !(H (lit "system")) by (vm_compute; discriminate).
  reflexivity.
Qed.

(** A reply of status 200 to a resolved user is the merged response of the
    provider, after an allowed check. *)
Lemma handler_success req u tier uid cs :
  Claude.authenticateUser nts b64 (Claude.clerkClient env) req
  = (Claude.AuthSuccess u tier uid, cs) ->
  status (fst (Claude.handler nts b64 env req)) = 200%Z ->
  truthy (get_field (Claude.checkUsageLimit nts uid tier) "allowed") = true
  /\ exists data,
      fst (Claude.handler nts b64 env req)
      = Claude.json_reply 200
          (obj_define
             (obj_define (Claude.spread data) (lit "usage")
                (get_field (Claude.checkUsageLimit nts uid tier) "usage"))
             (lit "userTier") tier).
Proof.
  intros Ha. unfold Claude.handler.
  destruct (jseqb (method req) (lit "OPTIONS")); [cbn; discriminate |].
  destruct (negb (jseqb (method req) (lit "POST"))); [cbn; discriminate |].
  rewrite Ha.
  destruct (truthy (get_field (Claude.checkUsageLimit nts uid tier) "allowed"));
    cbn [negb]; [| cbn; discriminate].
  destruct (Claude.CLAUDE_API_KEY env) as [[| k0 k'] |]; try (cbn; discriminate).
  unfold Claude.proxy.
  destruct (Claude.build_request nts env (k0 :: k') req) as [init | m];
    [| cbn; discriminate].
  destruct (Claude.fetch env init) as [resp | m]; cbn [cbind];
    [| cbn; discriminate].
  unfold Claude.relay. destruct (Claude.ok resp) eqn:Hok; cbn [negb].
  - destruct (Claude.resp_json resp) as [data | m]; cbn [cbind];
      [| cbn; discriminate].
    intros _. split; [reflexivity |]. exists data. reflexivity.
  - cbn [fst Claude.json_reply status]. intros H. exfalso.
    unfold Claude.ok in Hok.
    destruct (Claude.resp_status resp >=? 500)%Z eqn:E; [discriminate |].
    rewrite H in Hok. discriminate.
Qed.

(** C8.  Two requests that differ at most in the [userTier] field of
    their bodies get the same reply after the same calls.  When the user
    is resolved, the tier handed on is the one derived from the user
    record, and in a reply of status 200 both the [userTier] field and the
    usage reported by the check, which was passed with that tier, come
    from it. *)
Theorem C8_client_tier_is_ignored m a b1 b2 :
  (forall k, k <> lit "userTier" -> get_prop b1 k = get_prop b2 k) ->
  let r1 := {| method := m; authorization := a; body := b1 |} in
  let r2 := {| method := m; authorization := a; body := b2 |} in
  Claude.handler nts b64 env r1 = Claude.handler nts b64 env r2
  /\ forall u tier uid cs,
      Claude.authenticateUser nts b64 (Claude.clerkClient env) r1
      = (Claude.AuthSuccess u tier uid, cs) ->
      tier = Claude.getUserTier u
      /\ (status (fst (Claude.handler nts b64 env r1)) = 200%Z ->
          truthy (get_field (Claude.checkUsageLimit nts (Claude.id u)
                               (Claude.getUserTier u)) "allowed") = true
          /\ exists o,
              payload (fst (Claude.handler nts b64 env r1)) = Some (VObject o)
              /\ assoc (lit "userTier") o = Some (Claude.getUserTier u)
              /\ assoc (lit "usage") o
                 = Some (get_field (Claude.checkUsageLimit nts (Claude.id u)
                                      (Claude.getUserTier u)) "usage")).
Proof.
  intros H r1 r2. split.
  - subst r1 r2. unfold Claude.handler, Claude.proxy. cbn [method].
    change (Claude.authenticateUser nts b64 (Claude.clerkClient env)
              {| method := m; authorization := a; body := b1 |})
      with (Claude.authenticateUser nts b64 (Claude.clerkClient env)
              {| method := m; authorization := a; body := b2 |}).
    destruct (jseqb m (lit "OPTIONS")); [reflexivity |].
    destruct (negb (jseqb m (lit "POST"))); [reflexivity |].
    destruct (Claude.authenticateUser nts b64 (Claude.clerkClient env) _)
      as [[error code | u tier uid] cs]; [reflexivity |].
    destruct (negb (truthy (get_field (Claude.checkUsageLimit nts uid tier) "allowed")));
      [reflexivity |].
    destruct (Claude.CLAUDE_API_KEY env) as [[| k0 k'] |]; try reflexivity.
    now rewrite (build_request_ignores_userTier (k0 :: k') m a b1 b2 H).
  - intros u tier uid cs Ha.
    destruct (authenticateUser_success _ _ _ _ _ _ _ _ Ha) as [-> ->].
    split; [reflexivity |]. intros Hs.
    destruct (handler_success r1 _ _ _ _ Ha Hs) as [Hallowed [data ->]].
    split; [exact Hallowed |].
    eexists. split; [reflexivity |]. split.
    + apply obj_define_assoc.
    + rewrite obj_define_assoc_other by (vm_compute; discriminate).
      apply obj_define_assoc.
Qed.

(** A tier string that is neither a key of the table nor a member of
    [Object.prototype] is refused with status 429, without usage. *)
Lemma handler_unknown_tier a b u key cs :
  Claude.authenticateUser nts b64 (Claude.clerkClient env) (post a b)
  = (Claude.AuthSuccess u (VString key) (Claude.id u), cs) ->
  Claude.find_tier key Claude.TIER_CONFIG = None ->
  existsb (jseqb key) Claude.Object_prototype_keys = false ->
  fst (Claude.handler nts b64 env (post a b))
  = Claude.json_reply 429
      [ field "error" (str "Usage limit exceeded");
        field "reason" (str "Invalid user tier");
        field "usage" VUndefined;
        field "userTier" (VString key);
        field "resetTime" (VNumber (Claude.next_midnight env)) ].
Proof.
  intros Ha H1 H2. unfold Claude.handler, post. cbn [method].
  change (jseqb (lit "POST") (lit "OPTIONS")) with false.
  change (jseqb (lit "POST") (lit "POST")) with true. cbn [negb].
  unfold post in Ha. rewrite Ha.
  rewrite (checkUsageLimit_unknown nts (Claude.id u) key H1 H2). reflexivity.
Qed.

End Proxy.

(** The hypotheses of C7 hold of a provider that answers 503: the reply is
    500 with the generic error. *)
Lemma C7_provider_failure_witness :
  fst (Claude.handler Number_toString_exact base64_utf8
         (sample_env (session_clerk premium_user) unavailable)
         (chat_request body_plain))
  = Claude.json_reply 500 [ field "error" (str "Internal server error") ].
Proof.
  refine (C7_provider_failure_is_generic Number_toString_exact base64_utf8
            (sample_env (session_clerk premium_user) unavailable)
            (chat_request body_plain) _ unavailable _ eq_refl eq_refl).
  lazy. right; right; left; reflexivity.
Defined.

(** The hypothesis of C8 holds of two bodies that differ in [userTier]
    only. *)
Lemma C8_client_tier_witness :
  Claude.handler Number_toString_exact base64_utf8
    (sample_env (session_clerk premium_user) sample_completion)
    (chat_request body_with_tier)
  = Claude.handler Number_toString_exact base64_utf8
      (sample_env (session_clerk premium_user) sample_completion)
      (chat_request body_plain).
Proof.
  refine (proj1 (C8_client_tier_is_ignored Number_toString_exact base64_utf8
                   (sample_env (session_clerk premium_user) sample_completion)
                   (lit "POST") (Some (lit "Bearer sess_1"))
                   body_with_tier body_plain _)).
  intros k Hk. unfold body_with_tier, body_plain, get_prop, field. cbn [assoc].
  rewrite (jseqb_neq _ _ Hk). reflexivity.
Defined.

(** C9, the code at a user whose private metadata name the tier
    [constructor]: the tier is none of the three of the table, yet the
    request passes the check, reaches the provider and is answered with
    status 200 and an undefined limit. *)
Theorem C9_inherited_tier_is_not_refused :
  Claude.getUserTier constructor_user = str "constructor"
  /\ Claude.find_tier (lit "constructor") Claude.TIER_CONFIG = None
  /\ fst (Claude.handler Number_toString_exact base64_utf8
            (sample_env (session_clerk constructor_user) sample_completion)
            (chat_request body_plain))
     = Claude.json_reply 200
         [ field "role" (str "assistant");
           field "usage" (VObject [ field "used" (VNumber (num_of_Z 0));
                                    field "limit" VUndefined ]);
           field "userTier" (str "constructor") ].
Proof. repeat split. Qed.

(** The tier [gold] of the same user is refused. *)
Example gold_tier_is_refused :
  status (fst (Claude.handler Number_toString_exact base64_utf8
                 (sample_env (session_clerk
                                (sample_user (VObject [ field "tier" (str "gold") ])
                                             (VObject [])))
                             sample_completion)
                 (chat_request body_plain)))
  = 429%Z.
Proof. reflexivity. Qed.

(* ===================================================================== *)
(** * Further properties *)
(* ===================================================================== *)

Lemma jseqb_false a b : jseqb a b = false -> a <> b.
Proof. intros E H. subst. rewrite jseqb_refl in E. discriminate. Qed.

Lemma assoc_app k l1 l2 :
  assoc k (l1 ++ l2)
  = match assoc k l1 with
    | Some v => Some v
    | None => assoc k l2
    end.
Proof.
  induction l1 as [| [k' v'] r IH]; cbn; [reflexivity |].
  destruct (jseqb k k'); [reflexivity | exact IH].
Qed.

(** ** The profile endpoint, all methods *)

Section IntakeShape.

Variable nts : number -> jsstring.
Variable now : jsstring.

(** X1.  Every reply of the profile endpoint carries the three CORS
    headers.  A preflight is answered 200 without payload and any other
    method than POST 405, whatever the body; and a request whose body
    holds no BigInt is never answered 500. *)
Theorem intake_reply_shape (req : Request) :
  headers (Profile.handler nts now req) = Profile.cors
  /\ (method req = lit "OPTIONS" ->
      Profile.handler nts now req
      = {| status := 200; headers := Profile.cors; payload := None |})
  /\ (method req <> lit "OPTIONS" -> method req <> lit "POST" ->
      Profile.handler nts now req
      = Profile.json_reply 405 [ field "error" (str "Method not allowed") ])
  /\ (bigint_free (body req) = true ->
      In (status (Profile.handler nts now req)) [200; 400; 405]%Z).
Proof.
  unfold Profile.handler.
  destruct (jseqb (method req) (lit "OPTIONS")) eqn:Eo.
  { apply jseqb_eq in Eo.
    split; [reflexivity | split; [reflexivity | split]].
    - intros H. contradiction.
    - intros _. cbn. auto. }
  destruct (jseqb (method req) (lit "POST")) eqn:Ep; cbn [negb].
  - apply jseqb_eq in Ep.
    destruct (negb (truthy (js_or (body req) (VObject [])))
              || negb (jseqb (typeof (js_or (body req) (VObject []))) (lit "object"))).
    { split; [reflexivity | split; [| split]].
      - intros H. destruct (jseqb_false _ _ Eo H).
      - intros _ H. contradiction.
      - intros _. cbn. auto. }
    destruct (JSON_stringify nts (js_or (body req) (VObject []))) as [r | m] eqn:Es;
      cbn [cbind].
    { split; [reflexivity | split; [| split]].
      - intros H. destruct (jseqb_false _ _ Eo H).
      - intros _ H. contradiction.
      - intros _. cbn. auto. }
    split; [reflexivity | split; [| split]].
    + intros H. destruct (jseqb_false _ _ Eo H).
    + intros _ H. contradiction.
    + intros Hb. exfalso.
      assert (bigint_free (js_or (body req) (VObject [])) = true) as Hb'.
      { unfold js_or. destruct (truthy (body req)); [exact Hb | reflexivity]. }
      destruct (bigint_free_serializes nts _ Hb') as [r Hr].
      unfold JSON_stringify in Es. congruence.
  - split; [reflexivity | split; [| split]].
    + intros H. destruct (jseqb_false _ _ Eo H).
    + intros _ _. reflexivity.
    + intros _. cbn. auto.
Qed.

End IntakeShape.

(** ** The diagnostics endpoint *)

Section Diagnostics.

Variable env : ClaudeV2.Env.

(** X2.  The diagnostics endpoint answers a POST with 200 exactly when
    both secrets are set (present and non-empty); the key of the LLM
    provider is examined first, so its absence is the one reported when
    both are missing.  The body and the credentials of the request play no
    part. *)
Theorem diagnostics_status (origin : option jsstring) (a : option jsstring) (b : value) :
  (status (ClaudeV2.handler env origin (post a b)) = 200%Z
   <-> ClaudeV2.unset (ClaudeV2.CLAUDE_API_KEY env) = false
       /\ ClaudeV2.unset (ClaudeV2.CLERK_SECRET_KEY env) = false)
  /\ (ClaudeV2.unset (ClaudeV2.CLAUDE_API_KEY env) = true ->
      payload (ClaudeV2.handler env origin (post a b))
      = Some (VObject [ field "error" (str "Claude API key not configured") ]))
  /\ (ClaudeV2.unset (ClaudeV2.CLAUDE_API_KEY env) = false ->
      ClaudeV2.unset (ClaudeV2.CLERK_SECRET_KEY env) = true ->
      payload (ClaudeV2.handler env origin (post a b))
      = Some (VObject [ field "error" (str "Clerk secret key not configured") ]))
  /\ ClaudeV2.handler env origin (post a b)
     = ClaudeV2.handler env origin (post None VUndefined).
Proof.
  unfold ClaudeV2.handler, post. cbn [method].
  change (jseqb (lit "POST") (lit "OPTIONS")) with false.
  change (jseqb (lit "POST") (lit "POST")) with true. cbn [negb].
  destruct (ClaudeV2.unset (ClaudeV2.CLAUDE_API_KEY env));
    destruct (ClaudeV2.unset (ClaudeV2.CLERK_SECRET_KEY env));
    cbn [status payload]; repeat split; intros; try discriminate;
    try reflexivity;
    match goal with
    | H : _ /\ _ |- _ => destruct H; discriminate
    end.
Qed.

(** X3.  The diagnostics endpoint refuses no origin.  On every reply, the
    allowed origin is the origin of the request, with credentials allowed,
    when that origin is one of the two addresses of the site, and else the
    wildcard without the credentials header. *)
Theorem diagnostics_origin_policy (origin : option jsstring) (req : Request) :
  let hs := headers (ClaudeV2.handler env origin req) in
  (forall o, origin = Some o ->
             o = ClaudeV2.site \/ o = ClaudeV2.www_site ->
             assoc allow_origin hs = Some (VString o)
             /\ assoc allow_credentials hs = Some (str "true"))
  /\ (origin <> Some ClaudeV2.site -> origin <> Some ClaudeV2.www_site ->
      assoc allow_origin hs = Some (str "*")
      /\ assoc allow_credentials hs = None).
Proof.
  cbv zeta.
  assert (exists extra,
             headers (ClaudeV2.handler env origin req)
             = ClaudeV2.applyCors origin ++ extra
             /\ assoc allow_origin extra = None
             /\ assoc allow_credentials extra = None) as [extra [-> [Hy Hx]]].
  { unfold ClaudeV2.handler.
    destruct (jseqb (method req) (lit "OPTIONS")); [exists []; now rewrite app_nil_r |].
    destruct (negb (jseqb (method req) (lit "POST")));
      [eexists; repeat split; reflexivity |].
    destruct (ClaudeV2.unset (ClaudeV2.CLAUDE_API_KEY env));
      [exists []; now rewrite app_nil_r |].
    destruct (ClaudeV2.unset (ClaudeV2.CLERK_SECRET_KEY env));
      exists []; now rewrite app_nil_r. }
  unfold ClaudeV2.applyCors. rewrite !assoc_app, Hx, Hy. split.
  - intros o -> Ho.
    assert (jseqb o ClaudeV2.site || jseqb o ClaudeV2.www_site = true) as ->.
    { destruct Ho as [-> | ->]; rewrite jseqb_refl; [reflexivity | apply orb_true_r]. }
    split; reflexivity.
  - intros H1 H2.
    assert (match origin with
            | Some o =>
              if jseqb o ClaudeV2.site || jseqb o ClaudeV2.www_site
              then [ (lit "Access-Control-Allow-Origin", VString o);
                     header "Access-Control-Allow-Credentials" "true" ]
              else [ header "Access-Control-Allow-Origin" "*" ]
            | None => [ header "Access-Control-Allow-Origin" "*" ]
            end = [ header "Access-Control-Allow-Origin" "*" ]) as ->.
    { destruct origin as [o |]; [| reflexivity].
      destruct (jseqb o ClaudeV2.site) eqn:E1;
        [apply jseqb_eq in E1; subst; contradiction |].
      destruct (jseqb o ClaudeV2.www_site) eqn:E2;
        [apply jseqb_eq in E2; subst; contradiction |].
      reflexivity. }
    split; reflexivity.
Qed.

End Diagnostics.

(** ** Tier and usage *)

(** X4.  The derived tier is never a falsy value: it is a truthy field of
    the metadata or one of [beta] and [free]. *)
Theorem derived_tier_is_truthy (u : Claude.User) :
  truthy (Claude.getUserTier u) = true
  /\ (Claude.getUserTier u = get_field (Claude.privateMetadata u) "tier"
      \/ Claude.getUserTier u = get_field (Claude.publicMetadata u) "tier"
      \/ Claude.getUserTier u = str "beta"
      \/ Claude.getUserTier u = str "free").
Proof.
  unfold Claude.getUserTier, get_field. rewrite !get_field_or_empty.
  destruct (truthy (get_prop (Claude.privateMetadata u) (lit "tier"))) eqn:Ep;
    [split; [exact Ep | now left] |].
  destruct (truthy (get_prop (Claude.publicMetadata u) (lit "tier"))) eqn:Eq;
    [split; [exact Eq | right; now left] |].
  match goal with
  | |- context [if ?c then _ else _] => destruct c
  end; split; try reflexivity; auto.
Qed.

Section LimiterShape.

Variable nts : number -> jsstring.

Lemma table_limit_is_positive key c :
  Claude.find_tier key Claude.TIER_CONFIG = Some c ->
  num_ge (num_of_Z 0) (Claude.dailyLimit c) = false.
Proof.
  unfold Claude.TIER_CONFIG. cbn [Claude.find_tier].
  repeat match goal with
         | |- context [if ?b then _ else _] => destruct b
         end; intros H; inversion H; subst; reflexivity.
Qed.

(** X5.  The usage check does not depend on the user and enforces no
    limit: for every tier value its result is an allowance with no usage
    consumed, or one of the refusals "Invalid user tier" and "Usage check
    failed"; the refusal for an exceeded daily limit never occurs. *)
Theorem usage_check_enforces_no_limit (u1 u2 : jsstring) (tier : value) :
  Claude.checkUsageLimit nts u1 tier = Claude.checkUsageLimit nts u2 tier
  /\ ((exists limit, Claude.checkUsageLimit nts u1 tier = Claude.allowed_with limit)
      \/ Claude.checkUsageLimit nts u1 tier = invalid_tier
      \/ Claude.checkUsageLimit nts u1 tier = check_failed).
Proof.
  split; [reflexivity |].
  unfold Claude.checkUsageLimit, Claude.TIER_CONFIG_get.
  destruct (ToString nts tier) as [key | m]; [| right; right; reflexivity].
  destruct (Claude.find_tier key Claude.TIER_CONFIG) as [c |] eqn:E.
  - left. unfold Claude.ge_value. rewrite (table_limit_is_positive key c E).
    eexists. reflexivity.
  - destruct (existsb (jseqb key) Claude.Object_prototype_keys).
    + left. eexists. reflexivity.
    + right; left. reflexivity.
Qed.

End LimiterShape.

(** ** The resolver, further *)

Lemma slice_from_bearer token : slice_from (lit "Bearer " ++ token) 7 = token.
Proof.
  unfold slice_from, slice, rel_index. rewrite length_app.
  change (length (lit "Bearer ")) with 7%nat.
  destruct (7 <? 0)%Z eqn:E1; [discriminate |].
  destruct (Z.of_nat (7 + length token) <? 0)%Z eqn:E2;
    [apply Z.ltb_lt in E2; lia |].
  replace (Z.to_nat (Z.min 7 (Z.of_nat (7 + length token)))) with 7%nat by lia.
  replace (Z.to_nat (Z.min (Z.of_nat (7 + length token)) (Z.of_nat (7 + length token))
                     - Z.min 7 (Z.of_nat (7 + length token))))
    with (length token) by lia.
  change (skipn 7 (lit "Bearer " ++ token)) with token.
  apply firstn_all.
Qed.

Section ResolverShape.

Variable nts : number -> jsstring.
Variable b64 : jsstring -> jsstring.
Variable clerk : Claude.Clerk.

(** The resolver on a well-formed header. *)
Lemma authenticateUser_bearer m token b :
  Claude.authenticateUser nts b64 clerk (bearer m token b)
  = match Claude.resolveUser b64 clerk token fresh with
    | (Throw _, st) =>
      (Claude.AuthError (lit "Authentication failed") 401, Claude.calls st)
    | (Normal _, st) =>
      match Claude.user st with
      | None =>
        (Claude.AuthError (lit "Invalid authentication token") 401, Claude.calls st)
      | Some u =>
        (match ToString nts (Claude.getUserTier u) with
         | Normal _ => Claude.AuthSuccess u (Claude.getUserTier u) (Claude.id u)
         | Throw _ => Claude.AuthError (lit "Authentication failed") 401
         end, Claude.calls st)
      end
    end.
Proof.
  unfold Claude.authenticateUser, bearer. cbn [authorization].
  change (Claude.nonempty (lit "Bearer " ++ token)) with true.
  replace (startsWith (lit "Bearer " ++ token) (lit "Bearer ")) with true
    by (cbn; destruct token; reflexivity).
  cbn [negb orb]. rewrite slice_from_bearer. unfold fresh.
  destruct (Claude.resolveUser b64 clerk token _) as [[[] | x] st];
    [| reflexivity].
  destruct (Claude.user st) as [u |]; [| reflexivity].
  cbv zeta. unfold Claude.authenticated_log.
  destruct (ToString nts (Claude.getUserTier u)); reflexivity.
Qed.


(** X6.  The session strategy decides when it succeeds: for a token that
    is the identifier of a session whose user the provider returns, the
    resolver makes exactly these two calls (the token is not verified,
    decoded or looked up) and authenticates that user with the tier
    derived from the record, provided the log of the authentication can
    render this tier as a string; when the conversion of the tier throws,
    the request is refused as "Authentication failed". *)
Theorem session_strategy_wins m b token s u :
  Claude.sessions_getSession clerk token = Normal (Some s) ->
  Claude.users_getUser clerk (Claude.userId s) = Normal (Some u) ->
  Claude.authenticateUser nts b64 clerk (bearer m token b)
  = (match ToString nts (Claude.getUserTier u) with
     | Normal _ => Claude.AuthSuccess u (Claude.getUserTier u) (Claude.id u)
     | Throw _ => Claude.AuthError (lit "Authentication failed") 401
     end,
     [ Claude.GetSession token; Claude.GetUser (Claude.userId s) ]).
Proof.
  intros H1 H2. rewrite authenticateUser_bearer.
  unfold Claude.resolveUser, Claude.sessionLookup, Claude.try_catch, Claude.bind,
    Claude.getSession, Claude.assign_getUser, Claude.call, Claude.set_user,
    Claude.ret, Claude.bind, fresh.
  cbn [Claude.user Claude.calls app]. rewrite H1. cbn [Claude.user Claude.calls app].
  rewrite H2. reflexivity.
Qed.

(** X7.  The fallback chain is entered by exceptions only: when the
    session lookup returns no session without throwing, the request is
    refused as "Invalid authentication token" after that single call. *)
Theorem missing_session_ends_the_chain m b token :
  Claude.sessions_getSession clerk token = Normal None ->
  Claude.authenticateUser nts b64 clerk (bearer m token b)
  = (Claude.AuthError (lit "Invalid authentication token") 401,
     [ Claude.GetSession token ]).
Proof.
  intros H1. rewrite authenticateUser_bearer.
  unfold Claude.resolveUser, Claude.sessionLookup, Claude.try_catch, Claude.bind,
    Claude.getSession, Claude.call, Claude.ret, fresh.
  cbn [Claude.user Claude.calls app]. rewrite H1. reflexivity.
Qed.

(** Every refusal of the resolver has the status 401 and one of three
    messages. *)
Lemma authenticateUser_refusal req e c cs :
  Claude.authenticateUser nts b64 clerk req = (Claude.AuthError e c, cs) ->
  c = 401%Z
  /\ (e = lit "Missing or invalid authorization header"
      \/ e = lit "Invalid authentication token"
      \/ e = lit "Authentication failed").
Proof.
  unfold Claude.authenticateUser.
  destruct (authorization req) as [h |];
    [| intros H; inversion H; subst; auto].
  destruct (negb (Claude.nonempty h) || negb (startsWith h (lit "Bearer ")));
    [intros H; inversion H; subst; auto |].
  destruct (Claude.resolveUser b64 clerk (slice_from h 7) _) as [[[] | x] st'];
    [| intros H; inversion H; subst; auto].
  destruct (Claude.user st') as [u |]; [| intros H; inversion H; subst; auto].
  cbv zeta. destruct (Claude.authenticated_log nts u _);
    intros H; inversion H; subst; auto.
Qed.

(** X8.  The outcomes of the resolver.  Every refusal carries the status
    401 and one of three messages: "Missing or invalid authorization
    header", "Invalid authentication token" or "Authentication failed".
    Whoever is authenticated has a tier that the log of the authentication
    rendered as a string.  And when the chain has resolved a user whose
    tier has no string conversion, the request is refused as
    "Authentication failed", after the calls of the chain. *)
Theorem resolver_outcomes req :
  (forall e c cs,
      Claude.authenticateUser nts b64 clerk req = (Claude.AuthError e c, cs) ->
      c = 401%Z
      /\ (e = lit "Missing or invalid authorization header"
          \/ e = lit "Invalid authentication token"
          \/ e = lit "Authentication failed"))
  /\ (forall u tier uid cs,
        Claude.authenticateUser nts b64 clerk req = (Claude.AuthSuccess u tier uid, cs) ->
        exists t, ToString nts tier = Normal t)
  /\ (forall m token b u x,
        req = bearer m token b ->
        Claude.user (snd (Claude.resolveUser b64 clerk token fresh)) = Some u ->
        ToString nts (Claude.getUserTier u) = Throw x ->
        Claude.authenticateUser nts b64 clerk req
        = (Claude.AuthError (lit "Authentication failed") 401,
           Claude.calls (snd (Claude.resolveUser b64 clerk token fresh)))).
Proof.
  split; [| split].
  - intros e c cs. apply authenticateUser_refusal.
  - intros u tier uid cs. unfold Claude.authenticateUser.
    destruct (authorization req) as [h |]; [| discriminate].
    destruct (negb (Claude.nonempty h) || negb (startsWith h (lit "Bearer ")));
      [discriminate |].
    destruct (Claude.resolveUser b64 clerk (slice_from h 7) _) as [[[] | y] st'];
      [| discriminate].
    destruct (Claude.user st') as [u' |]; [| discriminate].
    cbv zeta. unfold Claude.authenticated_log.
    destruct (ToString nts (Claude.getUserTier u')) as [t | y] eqn:E;
      [| discriminate].
    cbn [cbind]. intros H. inversion H; subst. exists t. exact E.
  - intros m token b u x -> Hu Hx. rewrite authenticateUser_bearer.
    destruct (Claude.resolveUser b64 clerk token fresh) as [[[] | y] st'];
      cbn [snd] in *; [| reflexivity].
    rewrite Hu, Hx. reflexivity.
Qed.

(** *** The number of calls *)

Lemma at_most_ret {A} (a : A) : at_most 0 (Claude.ret a).
Proof. intros st. exists []. now rewrite app_nil_r. Qed.

Lemma at_most_throw {A} e : at_most 0 (@Claude.throw A e).
Proof. intros st. exists []. now rewrite app_nil_r. Qed.

Lemma at_most_set_user u : at_most 0 (Claude.set_user u).
Proof. intros st. exists []. now rewrite app_nil_r. Qed.

Lemma at_most_call {A} c (r : completion A) : at_most 1 (Claude.call c r).
Proof. intros st. exists [c]. split; [reflexivity | cbn; lia]. Qed.

Lemma at_most_le n n' {A} (m : Claude.M A) :
  (n <= n')%nat -> at_most n m -> at_most n' m.
Proof.
  intros Hle H st. destruct (H st) as [extra [He Hl]].
  exists extra. split; [exact He | lia].
Qed.

Lemma at_most_bind n1 n2 {A B} (m : Claude.M A) (f : A -> Claude.M B) :
  at_most n1 m -> (forall a, at_most n2 (f a)) ->
  at_most (n1 + n2) (Claude.bind m f).
Proof.
  intros Hm Hf st. unfold Claude.bind. destruct (Hm st) as [x1 [E1 L1]].
  destruct (m st) as [[a | e] st']; cbn [snd] in *.
  - destruct (Hf a st') as [x2 [E2 L2]]. exists (x1 ++ x2).
    rewrite E2, E1, app_assoc, length_app. split; [reflexivity | lia].
  - exists x1. split; [exact E1 | lia].
Qed.

Lemma at_most_try n1 n2 {A} (m : Claude.M A) (h : jsstring -> Claude.M A) :
  at_most n1 m -> (forall e, at_most n2 (h e)) ->
  at_most (n1 + n2) (Claude.try_catch m h).
Proof.
  intros Hm Hh st. unfold Claude.try_catch. destruct (Hm st) as [x1 [E1 L1]].
  destruct (m st) as [[a | e] st']; cbn [snd] in *.
  - exists x1. split; [exact E1 | lia].
  - destruct (Hh e st') as [x2 [E2 L2]]. exists (x1 ++ x2).
    rewrite E2, E1, app_assoc, length_app. split; [reflexivity | lia].
Qed.

Lemma at_most_assign i : at_most 1 (Claude.assign_getUser clerk i).
Proof.
  unfold Claude.assign_getUser.
  apply (at_most_bind 1 0); [apply at_most_call | intros u].
  apply (at_most_bind 0 0); [apply at_most_set_user | intros _; apply at_most_ret].
Qed.

Lemma at_most_directLookup token : at_most 1 (Claude.directLookup clerk token).
Proof.
  unfold Claude.directLookup.
  apply (at_most_bind 1 0); [apply at_most_assign | intros _; apply at_most_ret].
Qed.

Lemma at_most_base64Composite token :
  at_most 1 (Claude.base64Composite b64 clerk token).
Proof.
  unfold Claude.base64Composite.
  destruct (includes (b64 token) (lit ":"));
    [| apply (at_most_le 0); [lia | apply at_most_ret]].
  destruct (Claude.nonempty _ && Claude.nonempty _);
    [| apply (at_most_le 0); [lia | apply at_most_ret]].
  apply (at_most_bind 1 0); [apply at_most_assign | intros [usr |]].
  - destruct (Claude.primaryEmailAddress usr) as [e |];
      [destruct (jseqb e _) |]; first [apply at_most_ret | apply at_most_throw].
  - apply at_most_throw.
Qed.

Lemma at_most_fallback token : at_most 2 (Claude.fallback b64 clerk token).
Proof.
  unfold Claude.fallback.
  apply (at_most_try 2 0); [| intros _; apply at_most_ret].
  destruct (negb (includes token (lit ":")) && (20 <? length token)%nat).
  - apply (at_most_try 1 1);
      [apply at_most_base64Composite | intros _; apply at_most_directLookup].
  - apply (at_most_le 1); [lia | apply at_most_directLookup].
Qed.

Lemma at_most_jwtVerification token :
  at_most 4 (Claude.jwtVerification b64 clerk token).
Proof.
  unfold Claude.jwtVerification, Claude.tokenLookup, Claude.verify.
  apply (at_most_try 2 2); [| intros _; apply at_most_fallback].
  apply (at_most_bind 1 1); [apply at_most_call | intros [c |]].
  - destruct (Claude.nonempty (Claude.sub c)).
    + apply (at_most_bind 1 0); [apply at_most_assign | intros _; apply at_most_ret].
    + apply (at_most_le 0); [lia | apply at_most_ret].
  - apply (at_most_le 0); [lia | apply at_most_ret].
Qed.

(** The chain starts with the session lookup and adds at most five
    calls. *)
Lemma resolveUser_calls token st :
  exists extra,
    Claude.calls (snd (Claude.resolveUser b64 clerk token st))
    = Claude.calls st ++ Claude.GetSession token :: extra
    /\ (length extra <= 5)%nat.
Proof.
  pose (st1 := {| Claude.user := Claude.user st;
                  Claude.calls := Claude.calls st ++ [Claude.GetSession token] |}).
  pose (rest := Claude.try_catch
                  (match Claude.sessions_getSession clerk token with
                   | Normal session =>
                     match session with
                     | Some s =>
                       Claude.bind (Claude.assign_getUser clerk (Claude.userId s))
                                   (fun _ => Claude.ret tt)
                     | None => Claude.ret tt
                     end
                   | Throw e => Claude.throw e
                   end)
                  (fun _ => Claude.jwtVerification b64 clerk token)).
  assert (Claude.resolveUser b64 clerk token st = rest st1) as ->.
  { unfold rest, Claude.resolveUser, Claude.sessionLookup, Claude.getSession,
      Claude.try_catch, Claude.bind, Claude.call, Claude.throw. fold st1.
    destruct (Claude.sessions_getSession clerk token); reflexivity. }
  assert (at_most 5 rest) as H.
  { unfold rest. apply (at_most_try 1 4); [| intros _; apply at_most_jwtVerification].
    destruct (Claude.sessions_getSession clerk token) as [[s |] | e].
    - apply (at_most_bind 1 0); [apply at_most_assign | intros _; apply at_most_ret].
    - apply (at_most_le 0); [lia | apply at_most_ret].
    - apply (at_most_le 0); [lia | apply at_most_throw]. }
  destruct (H st1) as [extra [E L]]. exists extra. split; [| exact L].
  rewrite E. unfold st1. cbn [Claude.calls]. now rewrite <- app_assoc.
Qed.

(** X9.  A request makes at most six calls to the identity provider, and
    when it makes any the first is the session lookup of the token that
    follows "Bearer " in the header. *)
Theorem identity_calls_are_bounded req :
  snd (Claude.authenticateUser nts b64 clerk req) = []
  \/ exists h extra,
      authorization req = Some h
      /\ snd (Claude.authenticateUser nts b64 clerk req)
         = Claude.GetSession (slice_from h 7) :: extra
      /\ (length extra <= 5)%nat.
Proof.
  unfold Claude.authenticateUser.
  destruct (authorization req) as [h |]; [| now left].
  destruct (negb (Claude.nonempty h) || negb (startsWith h (lit "Bearer ")));
    [now left |].
  right. destruct (resolveUser_calls (slice_from h 7)
                     {| Claude.user := None; Claude.calls := [] |})
    as [extra [E L]].
  exists h, extra. split; [reflexivity |]. split; [| exact L].
  cbn [Claude.calls app] in E.
  destruct (Claude.resolveUser b64 clerk (slice_from h 7) _) as [[[] | x] st'];
    cbn [snd] in *; [destruct (Claude.user st') as [u |] |]; try exact E.
  cbv zeta. destruct (Claude.authenticated_log nts u _); exact E.
Qed.

(** *** Where the authenticated user comes from *)

Lemma keeps_ret {A} (a : A) : keeps_provenance clerk (Claude.ret a).
Proof. intros st H. exact H. Qed.

Lemma keeps_throw {A} e : keeps_provenance clerk (@Claude.throw A e).
Proof. intros st H. exact H. Qed.

Lemma keeps_call {A} c (r : completion A) : keeps_provenance clerk (Claude.call c r).
Proof.
  intros st H u Hu. cbn in Hu. destruct (H u Hu) as [i [Hin Hr]].
  exists i. split; [cbn; apply in_or_app; now left | exact Hr].
Qed.

Lemma keeps_bind {A B} (m : Claude.M A) (f : A -> Claude.M B) :
  keeps_provenance clerk m -> (forall a, keeps_provenance clerk (f a)) ->
  keeps_provenance clerk (Claude.bind m f).
Proof.
  intros Hm Hf st H. unfold Claude.bind. specialize (Hm st H).
  destruct (m st) as [[a | e] st']; cbn [snd] in *; [now apply Hf | exact Hm].
Qed.

Lemma keeps_try {A} (m : Claude.M A) (h : jsstring -> Claude.M A) :
  keeps_provenance clerk m -> (forall e, keeps_provenance clerk (h e)) ->
  keeps_provenance clerk (Claude.try_catch m h).
Proof.
  intros Hm Hh st H. unfold Claude.try_catch. specialize (Hm st H).
  destruct (m st) as [[a | e] st']; cbn [snd] in *; [exact Hm | now apply Hh].
Qed.

Lemma keeps_assign i : keeps_provenance clerk (Claude.assign_getUser clerk i).
Proof.
  intros st H. unfold Claude.assign_getUser, Claude.bind, Claude.call,
    Claude.set_user, Claude.ret.
  destruct (Claude.users_getUser clerk i) as [u' | e] eqn:E; cbn [snd].
  - intros u Hu. cbn in Hu. subst u'. exists i. split; [| exact E].
    cbn. apply in_or_app. right. now left.
  - intros u Hu. cbn in Hu. destruct (H u Hu) as [j [Hin Hr]].
    exists j. split; [cbn; apply in_or_app; now left | exact Hr].
Qed.

Ltac keeps_steps :=
  repeat first
    [ apply keeps_ret
    | apply keeps_throw
    | apply keeps_assign
    | apply keeps_call
    | apply keeps_bind; [| intros ?]
    | apply keeps_try; [| intros ?]
    | match goal with
      | |- keeps_provenance _ (match ?x with _ => _ end) => destruct x
      end ].

Lemma keeps_resolveUser token :
  keeps_provenance clerk (Claude.resolveUser b64 clerk token).
Proof.
  unfold Claude.resolveUser, Claude.sessionLookup, Claude.jwtVerification,
    Claude.tokenLookup, Claude.fallback, Claude.base64Composite,
    Claude.directLookup, Claude.getSession, Claude.verify.
  keeps_steps.
Qed.

(** X10.  Whoever is authenticated is a user record that the identity
    provider returned to a user lookup made during this request. *)
Theorem authenticated_user_comes_from_provider req u tier uid cs :
  Claude.authenticateUser nts b64 clerk req = (Claude.AuthSuccess u tier uid, cs) ->
  exists i, In (Claude.GetUser i) cs
            /\ Claude.users_getUser clerk i = Normal (Some u).
Proof.
  unfold Claude.authenticateUser.
  destruct (authorization req) as [h |]; [| discriminate].
  destruct (negb (Claude.nonempty h) || negb (startsWith h (lit "Bearer ")));
    [discriminate |].
  assert (from_provider clerk {| Claude.user := None; Claude.calls := [] |}) as H0
      by (intros x Hx; discriminate).
  pose proof (keeps_resolveUser (slice_from h 7) _ H0) as Hk.
  destruct (Claude.resolveUser b64 clerk (slice_from h 7) _) as [[[] | x] st'];
    [| discriminate].
  cbn [snd] in Hk. destruct (Claude.user st') as [u' |] eqn:Eu; [| discriminate].
  cbv zeta. destruct (Claude.authenticated_log nts u' _); [| discriminate].
  intros H. inversion H; subst. now apply Hk.
Qed.

(** X11.  The composite strategy assigns the user before it compares the
    e-mail: when the token decodes to an e-mail and the identifier of a
    user whose primary e-mail is another one, and the lookup of the raw
    token then throws, the resolver ends after these four calls with that
    user all the same: the request is authenticated as that user when the
    log of the authentication can render the tier as a string, and refused
    as "Authentication failed" when the conversion of the tier throws. *)
Theorem mismatched_user_stays_authenticated m b token e1 e2 e3 u :
  Claude.sessions_getSession clerk token = Throw e1 ->
  Claude.verifyToken clerk token = Throw e2 ->
  includes token (lit ":") = false ->
  (20 < length token)%nat ->
  includes (b64 token) (lit ":") = true ->
  nth 0 (split (b64 token) colon) [] <> [] ->
  nth 1 (split (b64 token) colon) [] <> [] ->
  Claude.users_getUser clerk (nth 1 (split (b64 token) colon) []) = Normal (Some u) ->
  Claude.primaryEmailAddress u <> Some (nth 0 (split (b64 token) colon) []) ->
  Claude.users_getUser clerk token = Throw e3 ->
  Claude.authenticateUser nts b64 clerk (bearer m token b)
  = (match ToString nts (Claude.getUserTier u) with
     | Normal _ => Claude.AuthSuccess u (Claude.getUserTier u) (Claude.id u)
     | Throw _ => Claude.AuthError (lit "Authentication failed") 401
     end,
     [ Claude.GetSession token; Claude.VerifyToken token;
       Claude.GetUser (nth 1 (split (b64 token) colon) []);
       Claude.GetUser token ]).
Proof.
  intros Hs Hv Hc Hl Hd He Hi Hu Hm Ht. rewrite authenticateUser_bearer.
  assert (negb (includes token (lit ":")) && (20 <? length token)%nat = true) as Hg.
  { rewrite Hc. apply Nat.ltb_lt in Hl. now rewrite Hl. }
  assert (match Claude.primaryEmailAddress u with
          | Some e =>
            if jseqb e (nth 0 (split (b64 token) colon) [])
            then Claude.ret tt else Claude.throw (lit "Email mismatch")
          | None => Claude.throw (lit "Email mismatch")
          end = Claude.throw (lit "Email mismatch")) as Hx.
  { destruct (Claude.primaryEmailAddress u) as [e |]; [| reflexivity].
    rewrite jseqb_neq; [reflexivity | congruence]. }
  unfold Claude.resolveUser, Claude.sessionLookup, Claude.jwtVerification,
    Claude.tokenLookup, Claude.fallback, Claude.base64Composite,
    Claude.directLookup, Claude.getSession, Claude.verify, Claude.assign_getUser.
  rewrite Hg, Hd, (nonempty_true _ He), (nonempty_true _ Hi).
  unfold Claude.try_catch, Claude.bind, Claude.call, Claude.set_user, fresh.
  cbn [Claude.user Claude.calls app andb]. rewrite Hs. cbn [Claude.user Claude.calls app].
  rewrite Hv. cbn [Claude.user Claude.calls app]. rewrite Hu.
  cbn [Claude.user Claude.calls app Claude.ret].
  rewrite Hx. unfold Claude.throw. cbn [Claude.user Claude.calls app].
  rewrite Ht. reflexivity.
Qed.

End ResolverShape.

(** The hypotheses of X6 hold of the session [sess_1]. *)
Lemma session_strategy_witness :
  Claude.authenticateUser Number_toString_exact base64_utf8 (session_clerk ada)
    (bearer (lit "POST") (lit "sess_1") VUndefined)
  = (Claude.AuthSuccess ada (str "free") (lit "user_1"),
     [ Claude.GetSession (lit "sess_1"); Claude.GetUser (lit "user_1") ]).
Proof.
  exact (session_strategy_wins Number_toString_exact base64_utf8 (session_clerk ada)
           (lit "POST") VUndefined (lit "sess_1")
           {| Claude.userId := lit "user_1" |} ada eq_refl eq_refl).
Defined.

(** The hypothesis of X7 holds of a provider that finds no session. *)
Lemma missing_session_witness :
  Claude.authenticateUser Number_toString_exact base64_utf8 no_session_clerk
    (bearer (lit "POST") (lit "sess_9") VUndefined)
  = (Claude.AuthError (lit "Invalid authentication token") 401,
     [ Claude.GetSession (lit "sess_9") ]).
Proof.
  exact (missing_session_ends_the_chain Number_toString_exact base64_utf8
           no_session_clerk
           (lit "POST") VUndefined (lit "sess_9") eq_refl).
Defined.

(** The hypothesis of X10 holds of the session [sess_1]. *)
Lemma authenticated_user_witness :
  exists i, In (Claude.GetUser i)
               [ Claude.GetSession (lit "sess_1"); Claude.GetUser (lit "user_1") ]
            /\ Claude.users_getUser (session_clerk ada) i = Normal (Some ada).
Proof.
  exact (authenticated_user_comes_from_provider Number_toString_exact base64_utf8
           (session_clerk ada)
           (bearer (lit "POST") (lit "sess_1") VUndefined)
           ada (str "free") (lit "user_1") _ eq_refl).
Defined.

(** The hypotheses of X11 hold of the token of [eve@example.com] for the
    identifier of Ada. *)
Lemma mismatched_user_witness :
  Claude.authenticateUser Number_toString_exact base64_utf8 (session_clerk ada)
    (bearer (lit "POST") token_of_eve VUndefined)
  = (Claude.AuthSuccess ada (str "free") (lit "user_1"),
     [ Claude.GetSession token_of_eve; Claude.VerifyToken token_of_eve;
       Claude.GetUser (lit "user_1"); Claude.GetUser token_of_eve ]).
Proof.
  refine (mismatched_user_stays_authenticated Number_toString_exact base64_utf8
            (session_clerk ada)
            (lit "POST") VUndefined token_of_eve
            (lit "Not Found") (lit "Invalid token") (lit "Not Found") ada
            eq_refl eq_refl eq_refl _ eq_refl _ _ eq_refl _ eq_refl).
  - vm_compute. lia.
  - vm_compute. discriminate.
  - vm_compute. discriminate.
  - vm_compute. discriminate.
Defined.

(** A user whose tier cannot be rendered in the log of the authentication
    is refused, by the session strategy and by the chat handler. *)
Example stringless_tier_is_refused :
  Claude.authenticateUser Number_toString_exact base64_utf8
    (session_clerk stringless_user)
    (bearer (lit "POST") (lit "sess_1") VUndefined)
  = (Claude.AuthError (lit "Authentication failed") 401,
     [ Claude.GetSession (lit "sess_1"); Claude.GetUser (lit "user_1") ]).
Proof. reflexivity. Qed.

Example stringless_tier_reply :
  fst (Claude.handler Number_toString_exact base64_utf8
         (sample_env (session_clerk stringless_user) sample_completion)
         (chat_request body_plain))
  = Claude.json_reply 401 [ field "error" (str "Authentication failed") ].
Proof. vm_compute. reflexivity. Qed.

(** The bound of X9 is reached: six calls when every strategy is tried. *)
Example six_identity_calls :
  length (snd (Claude.authenticateUser Number_toString_exact base64_utf8
                 {| Claude.sessions_getSession := fun _ =>
                      Normal (Some {| Claude.userId := lit "user_0" |});
                    Claude.users_getUser := fun i =>
                      if jseqb i (lit "user_1") then Normal (Some ada)
                      else Throw (lit "Not Found");
                    Claude.verifyToken := fun _ =>
                      Normal (Some {| Claude.sub := lit "user_0" |}) |}
                 (bearer (lit "POST") token_of_eve VUndefined)))
  = 6%nat.
Proof. reflexivity. Qed.

(** ** The chat proxy, further *)

(** Defining the properties of an object one by one, in order, on an
    object that has none of them rebuilds the list of properties. *)
Lemma fold_define_fresh ps : forall acc,
  NoDup (map fst ps) ->
  (forall k, In k (map fst ps) -> ~ In k (map fst acc)) ->
  fold_left (fun a kv => obj_define a (fst kv) (snd kv)) ps acc = acc ++ ps.
Proof.
  induction ps as [| [k v] r IH]; intros acc Hnd Hdis; cbn [fold_left fst snd].
  - now rewrite app_nil_r.
  - cbn [map fst] in Hnd. inversion Hnd as [| ? ? Hk Hr]; subst.
    rewrite obj_define_fresh by (apply Hdis; now left).
    rewrite IH; [now rewrite <- app_assoc | exact Hr |].
    intros k' Hin. rewrite map_app, in_app_iff. cbn. intros [H | [H | []]].
    + apply (Hdis k'); [now right | exact H].
    + subst. contradiction.
Qed.

Lemma spread_object ps :
  NoDup (map fst ps) -> Claude.spread (VObject ps) = ps.
Proof.
  intros H. unfold Claude.spread. cbn [own_entries].
  now rewrite fold_define_fresh by (auto; intros k _ []).
Qed.

Section ProxyShape.

Variable nts : number -> jsstring.
Variable b64 : jsstring -> jsstring.
Variable env : Claude.Env.

(** X12.  A POST without authorization header, or with one that does not
    start with "Bearer ", is refused with status 401 and "Missing or
    invalid authorization header" before any call to a provider. *)
Theorem malformed_header_makes_no_call (a : option jsstring) (b : value) :
  (forall h, a = Some h -> startsWith h (lit "Bearer ") = false) ->
  Claude.handler nts b64 env (post a b) = (unauthorized, []).
Proof.
  intros H. unfold Claude.handler, post. cbn [method].
  change (jseqb (lit "POST") (lit "OPTIONS")) with false.
  change (jseqb (lit "POST") (lit "POST")) with true. cbn [negb].
  unfold Claude.authenticateUser. cbn [authorization].
  destruct a as [h |]; [| reflexivity].
  rewrite (H h eq_refl). cbn [negb]. rewrite orb_true_r. reflexivity.
Qed.

Lemma build_request_shape key req init :
  Claude.build_request nts env key req = Normal init ->
  exists text, init = Claude.anthropic_request key text.
Proof.
  unfold Claude.build_request. intros H.
  repeat match type of H with
         | cbind ?c _ = Normal _ =>
           destruct c; cbn [cbind] in H; [| discriminate]
         end.
  inversion H. eexists. reflexivity.
Qed.

(** X13.  The LLM provider is called only for a POST of an authenticated
    user whose usage check passed, with a configured key; the call is the
    last of the request and the only one to that provider, and it goes to
    the fixed address with the key of the server. *)
Theorem provider_call_is_guarded req init :
  In (Claude.Fetch init) (snd (Claude.handler nts b64 env req)) ->
  method req = lit "POST"
  /\ (exists u cs,
        Claude.authenticateUser nts b64 (Claude.clerkClient env) req
        = (Claude.AuthSuccess u (Claude.getUserTier u) (Claude.id u), cs)
        /\ truthy (get_field (Claude.checkUsageLimit nts (Claude.id u)
                                (Claude.getUserTier u)) "allowed") = true
        /\ snd (Claude.handler nts b64 env req) = cs ++ [Claude.Fetch init]
        /\ forall i, ~ In (Claude.Fetch i) cs)
  /\ (exists key text,
        Claude.CLAUDE_API_KEY env = Some key /\ key <> []
        /\ init = Claude.anthropic_request key text
        /\ Claude.url init = lit "https://api.anthropic.com/v1/messages"
        /\ Claude.fetch_headers init = anthropic_headers key).
Proof.
  unfold Claude.handler.
  destruct (jseqb (method req) (lit "OPTIONS")); [intros [] |].
  destruct (jseqb (method req) (lit "POST")) eqn:Ep; cbn [negb]; [| intros []].
  apply jseqb_eq in Ep.
  pose proof (authenticateUser_no_fetch nts b64 (Claude.clerkClient env) req) as Hq.
  destruct (Claude.authenticateUser nts b64 (Claude.clerkClient env) req)
    as [[error code | u tier uid] cs] eqn:Ea; cbn [snd] in Hq.
  { intros H. destruct (Hq _ H). }
  destruct (authenticateUser_success _ _ _ _ _ _ _ _ Ea) as [-> ->].
  destruct (truthy (get_field (Claude.checkUsageLimit nts (Claude.id u)
                                 (Claude.getUserTier u)) "allowed")) eqn:Eal;
    cbn [negb]; [| intros H; destruct (Hq _ H)].
  destruct (Claude.CLAUDE_API_KEY env) as [[| k0 k'] |] eqn:Ek;
    try (intros H; destruct (Hq _ H)).
  unfold Claude.proxy.
  destruct (Claude.build_request nts env (k0 :: k') req) as [init' | m] eqn:Eb.
  - intros H.
    assert (snd (let (c, cs') :=
                   (cbind (Claude.fetch env init')
                          (fun resp => Claude.relay nts resp (Claude.getUserTier u)
                                                    (Claude.id u)),
                    [Claude.Fetch init']) in
                 match c with
                 | Normal r => (r, cs ++ cs')
                 | Throw _ =>
                   (Claude.json_reply 500
                      [ field "error" (str "Internal Server Error") ], cs ++ cs')
                 end) = cs ++ [Claude.Fetch init']) as Hs
        by (destruct (cbind (Claude.fetch env init') _); reflexivity).
    rewrite Hs in H |- *.
    assert (init' = init) as ->.
    { apply in_app_or in H. destruct H as [H | [H | []]];
        [destruct (Hq _ H) | now inversion H]. }
    destruct (build_request_shape _ _ _ Eb) as [text ->].
    split; [exact Ep |]. split.
    + exists u, cs. auto.
    + exists (k0 :: k'), text. repeat split; try reflexivity. discriminate.
  - cbn [snd]. rewrite app_nil_r. intros H. destruct (Hq _ H).
Qed.

(** X14.  Without a key of the LLM provider (missing or empty), an
    authenticated POST that passes the usage check is answered 500 "Server
    configuration error", and nothing is called beyond the identity
    provider. *)
Theorem missing_key_is_reported a b u tier uid cs :
  Claude.authenticateUser nts b64 (Claude.clerkClient env) (post a b)
  = (Claude.AuthSuccess u tier uid, cs) ->
  truthy (get_field (Claude.checkUsageLimit nts uid tier) "allowed") = true ->
  Claude.CLAUDE_API_KEY env = None \/ Claude.CLAUDE_API_KEY env = Some [] ->
  Claude.handler nts b64 env (post a b) = (misconfigured, cs)
  /\ forall init, ~ In (Claude.Fetch init) cs.
Proof.
  intros Ha Hal Hk. split.
  - unfold Claude.handler. unfold post in *. cbn [method].
    change (jseqb (lit "POST") (lit "OPTIONS")) with false.
    change (jseqb (lit "POST") (lit "POST")) with true. cbn [negb].
    rewrite Ha, Hal. cbn [negb]. destruct Hk as [-> | ->]; reflexivity.
  - intros init. pose proof (authenticateUser_no_fetch nts b64 (Claude.clerkClient env)
                               (post a b) init) as H.
    now rewrite Ha in H.
Qed.

(** X15.  Every reply of the chat endpoint starts with the five CORS
    headers.  A preflight is answered 204 without payload and any other
    method than POST 405 with an [Allow] header, both before
    authentication: no provider is called. *)
Theorem chat_replies_carry_cors req :
  (exists extra,
      headers (fst (Claude.handler nts b64 env req)) = Claude.cors ++ extra)
  /\ (method req = lit "OPTIONS" ->
      Claude.handler nts b64 env req
      = ({| status := 204; headers := Claude.cors; payload := None |}, []))
  /\ (method req <> lit "OPTIONS" -> method req <> lit "POST" ->
      status (fst (Claude.handler nts b64 env req)) = 405%Z
      /\ assoc (lit "Allow") (headers (fst (Claude.handler nts b64 env req)))
         = Some (VArray [ str "POST"; str "OPTIONS" ])
      /\ snd (Claude.handler nts b64 env req) = []).
Proof.
  unfold Claude.handler.
  destruct (jseqb (method req) (lit "OPTIONS")) eqn:Eo.
  { apply jseqb_eq in Eo. split; [exists []; now rewrite app_nil_r |].
    split; [reflexivity | intros H; contradiction]. }
  destruct (jseqb (method req) (lit "POST")) eqn:Ep; cbn [negb].
  - apply jseqb_eq in Ep. split; [| split].
    + destruct (Claude.authenticateUser nts b64 (Claude.clerkClient env) req)
        as [[error code | u tier uid] cs]; [exists []; now rewrite app_nil_r |].
      destruct (negb (truthy (get_field (Claude.checkUsageLimit nts uid tier) "allowed")));
        [exists []; now rewrite app_nil_r |].
      destruct (Claude.CLAUDE_API_KEY env) as [[| k0 k'] |];
        try (exists []; now rewrite app_nil_r).
      destruct (Claude.proxy nts env (k0 :: k') req tier uid) as [[r | m] cs'] eqn:E;
        cbn [fst]; [| exists []; now rewrite app_nil_r].
      exists []. rewrite app_nil_r.
      unfold Claude.proxy in E.
      destruct (Claude.build_request nts env (k0 :: k') req); [| discriminate].
      inversion E as [[Hr Hcs]]. clear E Hcs.
      destruct (Claude.fetch env a) as [resp | m]; [| discriminate].
      cbn [cbind] in Hr. unfold Claude.relay in Hr.
      destruct (negb (Claude.ok resp)); [inversion Hr; reflexivity |].
      destruct (Claude.resp_json resp); [| discriminate].
      cbn [cbind] in Hr. inversion Hr. reflexivity.
    + intros H. destruct (jseqb_false _ _ Eo H).
    + intros _ H. contradiction.
  - split; [eexists; reflexivity |]. split.
    + intros H. destruct (jseqb_false _ _ Eo H).
    + intros _ _. repeat split.
Qed.

(** X16.  Outside production the handler reads [messages.length] for its
    log: a body whose [messages] field is [null] makes an authenticated,
    allowed request fail with status 500 "Internal Server Error" before
    the LLM provider is called. *)
Theorem null_messages_fail_in_development a b u tier uid cs k0 k' :
  Claude.authenticateUser nts b64 (Claude.clerkClient env) (post a b)
  = (Claude.AuthSuccess u tier uid, cs) ->
  truthy (get_field (Claude.checkUsageLimit nts uid tier) "allowed") = true ->
  Claude.CLAUDE_API_KEY env = Some (k0 :: k') ->
  Claude.NODE_ENV env <> Some (lit "production") ->
  get_field b "messages" = VNull ->
  Claude.handler nts b64 env (post a b) = (Claude.internal_error, cs).
Proof.
  intros Ha Hal Hk Hn Hm.
  unfold Claude.handler. unfold post in *. cbn [method].
  change (jseqb (lit "POST") (lit "OPTIONS")) with false.
  change (jseqb (lit "POST") (lit "POST")) with true. cbn [negb].
  rewrite Ha, Hal, Hk. cbn [negb].
  unfold Claude.proxy, Claude.build_request. cbn [body].
  unfold get_field in *. rewrite !get_field_or_empty, Hm.
  cbn [Claude.default].
  assert (match Claude.NODE_ENV env with
          | Some e => jseqb e (lit "production")
          | None => false
          end = false) as ->.
  { destruct (Claude.NODE_ENV env) as [e |]; [| reflexivity].
    apply jseqb_neq. congruence. }
  cbn [cbind]. now rewrite app_nil_r.
Qed.

(** X17.  The reply to a successful completion keeps every field of the
    object that the provider returned, except that [usage] and [userTier]
    are those of the server: the usage reported by the check and the tier
    of the user, even when the payload of the provider has fields of these
    names. *)
Theorem success_reply_merges_payload resp tier uid ps :
  Claude.ok resp = true ->
  Claude.resp_json resp = Normal (VObject ps) ->
  NoDup (map fst ps) ->
  exists o,
    Claude.relay nts resp tier uid = Normal (Claude.json_reply 200 o)
    /\ assoc (lit "userTier") o = Some tier
    /\ assoc (lit "usage") o
       = Some (get_field (Claude.checkUsageLimit nts uid tier) "usage")
    /\ forall k, k <> lit "usage" -> k <> lit "userTier" ->
                 assoc k o = assoc k ps.
Proof.
  intros Hok Hj Hnd. unfold Claude.relay. rewrite Hok, Hj. cbn [negb cbind].
  rewrite (spread_object ps Hnd).
  eexists. split; [reflexivity |]. split; [apply obj_define_assoc |]. split.
  - rewrite obj_define_assoc_other by (vm_compute; discriminate).
    apply obj_define_assoc.
  - intros k H1 H2. now rewrite !obj_define_assoc_other by assumption.
Qed.

(** X18.  The status of a reply of the chat endpoint is 200, 204, 401,
    405, 429 or 500, or else the status below 500 with which the LLM
    provider refused the call. *)
Theorem chat_reply_statuses req :
  In (status (fst (Claude.handler nts b64 env req))) [200; 204; 401; 405; 429; 500]%Z
  \/ exists init resp,
      In (Claude.Fetch init) (snd (Claude.handler nts b64 env req))
      /\ Claude.fetch env init = Normal resp
      /\ Claude.ok resp = false
      /\ (Claude.resp_status resp < 500)%Z
      /\ status (fst (Claude.handler nts b64 env req)) = Claude.resp_status resp.
Proof.
  unfold Claude.handler.
  destruct (jseqb (method req) (lit "OPTIONS")); [left; cbn; auto 10 |].
  destruct (negb (jseqb (method req) (lit "POST"))); [left; cbn; auto 10 |].
  destruct (Claude.authenticateUser nts b64 (Claude.clerkClient env) req)
    as [[error code | u tier uid] cs] eqn:Ea.
  { destruct (authenticateUser_refusal _ _ _ _ _ _ _ Ea) as [-> _]. left; cbn; auto 10. }
  destruct (negb (truthy (get_field (Claude.checkUsageLimit nts uid tier) "allowed")));
    [left; cbn; auto 10 |].
  destruct (Claude.CLAUDE_API_KEY env) as [[| k0 k'] |]; try solve [left; cbn; auto 10].
  unfold Claude.proxy.
  destruct (Claude.build_request nts env (k0 :: k') req) as [init | m];
    [| left; cbn; auto 10].
  destruct (Claude.fetch env init) as [resp | m] eqn:Ef; cbn [cbind];
    [| left; cbn; auto 10].
  unfold Claude.relay. destruct (Claude.ok resp) eqn:Hok; cbn [negb].
  - destruct (Claude.resp_json resp); cbn [cbind]; left; cbn; auto 10.
  - destruct (Claude.resp_status resp >=? 500)%Z eqn:E; [left; cbn; auto 10 |].
    right. exists init, resp. cbn [fst snd Claude.json_reply status].
    repeat split; try assumption.
    + apply in_or_app. right. now left.
    + rewrite Z.geb_leb in E. apply Z.leb_gt in E. exact E.
Qed.

End ProxyShape.

(** The hypothesis of X12 holds of a header of another scheme. *)
Lemma malformed_header_witness :
  Claude.handler Number_toString_exact base64_utf8
    (sample_env users_clerk sample_completion)
    (post (Some (lit "Basic dXNlcjpwYXNz")) body_plain)
  = (unauthorized, []).
Proof.
  refine (malformed_header_makes_no_call Number_toString_exact base64_utf8
            (sample_env users_clerk sample_completion)
            (Some (lit "Basic dXNlcjpwYXNz")) body_plain _).
  intros h H. inversion H. reflexivity.
Defined.

(** The hypothesis of X13 holds of the sample request: its last call is
    the one to the LLM provider. *)
Lemma provider_call_witness :
  exists init,
    sample_init = Some init
    /\ method (chat_request body_plain) = lit "POST"
    /\ Claude.url init = lit "https://api.anthropic.com/v1/messages"
    /\ Claude.fetch_headers init = anthropic_headers (lit "sk-sample").
Proof.
  eexists. split; [vm_compute; reflexivity |].
  match goal with
  | |- _ /\ Claude.url ?i = _ /\ _ =>
    destruct (provider_call_is_guarded Number_toString_exact base64_utf8
                (sample_env (session_clerk premium_user) sample_completion)
                (chat_request body_plain) i) as [Hm [_ [key [text [Hk [_ [_ [Hu Hh]]]]]]]]
  end.
  - vm_compute. right; right; left; reflexivity.
  - split; [exact Hm |]. split; [exact Hu |].
    rewrite Hh. cbn in Hk. inversion Hk. reflexivity.
Defined.

(** The hypotheses of X14 hold of a server without key. *)
Lemma missing_key_witness :
  Claude.handler Number_toString_exact base64_utf8 (keyless_env (session_clerk ada))
    (post (Some (lit "Bearer sess_1")) body_plain)
  = (misconfigured,
     [ Claude.GetSession (lit "sess_1"); Claude.GetUser (lit "user_1") ]).
Proof.
  exact (proj1 (missing_key_is_reported Number_toString_exact base64_utf8
                  (keyless_env (session_clerk ada))
                  (Some (lit "Bearer sess_1")) body_plain
                  ada (str "free") (lit "user_1") _
                  eq_refl eq_refl (or_introl eq_refl))).
Defined.

(** The hypotheses of X16 hold of a development server and a body with
    [messages: null]. *)
Lemma null_messages_witness :
  Claude.handler Number_toString_exact base64_utf8
    (development_env (session_clerk ada) sample_completion)
    (post (Some (lit "Bearer sess_1")) body_null_messages)
  = (Claude.internal_error,
     [ Claude.GetSession (lit "sess_1"); Claude.GetUser (lit "user_1") ]).
Proof.
  refine (null_messages_fail_in_development Number_toString_exact base64_utf8
            (development_env (session_clerk ada) sample_completion)
            (Some (lit "Bearer sess_1")) body_null_messages
            ada (str "free") (lit "user_1") _ (N_of_ascii "s") (lit "k-sample")
            eq_refl eq_refl eq_refl _ eq_refl).
  vm_compute. discriminate.
Defined.

(** The hypotheses of X17 hold of a completion that reports a usage of its
    own, which the reply replaces. *)
Lemma success_reply_witness :
  exists o,
    Claude.relay Number_toString_exact completion_with_usage (str "free") (lit "user_1")
    = Normal (Claude.json_reply 200 o)
    /\ assoc (lit "userTier") o = Some (str "free")
    /\ assoc (lit "usage") o
       = Some (get_field (Claude.checkUsageLimit Number_toString_exact
                            (lit "user_1") (str "free")) "usage")
    /\ forall k, k <> lit "usage" -> k <> lit "userTier" ->
                 assoc k o = assoc k completion_payload.
Proof.
  refine (success_reply_merges_payload Number_toString_exact completion_with_usage
            (str "free") (lit "user_1") completion_payload eq_refl eq_refl _).
  vm_compute.
  repeat constructor; cbn; intuition discriminate.
Defined.

(** ** The composer, further *)

(** Picking the keys of an object one by one rebuilds its properties, as
    long as none is [__proto__]. *)
Lemma pick_keys_rebuilds ps0 ps : forall acc,
  NoDup (map fst ps0) ->
  incl ps ps0 ->
  NoDup (map fst ps) ->
  ~ In (lit "__proto__") (map fst ps) ->
  (forall k, In k (map fst ps) -> ~ In k (map fst acc)) ->
  fold_left (fun a k => obj_set a k (get_own (VObject ps0) k)) (map fst ps) acc
  = acc ++ ps.
Proof.
  induction ps as [| [k v] r IH]; intros acc H0 Hin Hnd Hp Hdis;
    cbn [map fst fold_left].
  - now rewrite app_nil_r.
  - cbn [map fst] in Hnd, Hp. inversion Hnd as [| ? ? Hk Hr]; subst.
    assert (get_own (VObject ps0) k = v) as ->.
    { unfold get_own. cbn [own_entries].
      rewrite (NoDup_assoc ps0 k v H0); [reflexivity |]. apply Hin. now left. }
    unfold obj_set at 2.
    rewrite jseqb_neq by (intros E; apply Hp; left; now subst).
    rewrite obj_define_fresh by (apply Hdis; now left).
    rewrite IH; [now rewrite <- app_assoc | exact H0 | | exact Hr | |].
    + intros kv Hkv. apply Hin. now right.
    + intros H. apply Hp. now right.
    + intros k' Hin'. rewrite map_app, in_app_iff. cbn. intros [H | [H | []]].
      * apply (Hdis k'); [now right | exact H].
      * subst. contradiction.
Qed.

Section ComposerShape.

Variable nts : number -> jsstring.

(** X19.  For an object of at most 20 properties, none of them named
    [__proto__], the fallback of [safeJSONString] changes nothing: the
    result is the serialization itself when it fits in 4000 units, and
    else its first 3997 units followed by three dots. *)
Theorem small_object_is_cut_not_reduced ps s :
  NoDup (map fst ps) ->
  (length ps <= 20)%nat ->
  ~ In (lit "__proto__") (map fst ps) ->
  JSON_stringify nts (VObject ps) = Normal (Some s) ->
  Claude.safeJSONString nts (VObject ps) 4000
  = if (Z.of_nat (length s) <=? 4000)%Z then s
    else slice s 0 3997 ++ lit "...".
Proof.
  intros Hnd Hlen Hp Hs. unfold Claude.safeJSONString.
  rewrite Hs. cbn [cbind the_string].
  destruct (Z.of_nat (length s) <=? 4000)%Z eqn:E; [reflexivity |].
  unfold Object_keys. cbn [own_entries cbind].
  rewrite firstn_all2 by (rewrite length_map; exact Hlen).
  unfold Claude.pick_keys.
  rewrite (pick_keys_rebuilds ps ps []) by
      (auto using incl_refl; intros k _ []).
  cbn [app]. rewrite Hs. cbn [cbind the_string].
  apply Z.leb_gt in E.
  destruct (Z.of_nat (length s) >? 4000)%Z eqn:G; [reflexivity |].
  pose proof (Zgt_cases (Z.of_nat (length s)) 4000) as C. rewrite G in C. lia.
Qed.

Lemma safeJSONString_length obj :
  (Z.of_nat (length (Claude.safeJSONString nts obj 4000)) <= 4000)%Z.
Proof.
  destruct (safeJSONString_cases nts obj)
    as [[s [_ [Hl ->]]] | [[s [es [out [_ [_ [_ [_ ->]]]]]]] | [_ ->]]].
  - exact Hl.
  - destruct (Z.of_nat (length out) >? 4000)%Z eqn:E.
    + rewrite length_app, Nat2Z.inj_add, slice_prefix_length.
      * cbn. lia.
      * apply Z.gtb_gt in E. lia.
    + pose proof (Zgt_cases (Z.of_nat (length out)) 4000) as G.
      rewrite E in G. exact G.
  - cbn. lia.
Qed.

(** X20.  Composing the prompt never alters the base: on a base string
    the result is the base followed by at most 4418 further units,
    whatever the size of the profile. *)
Theorem prompt_growth_is_bounded (base : jsstring) (profile : value) :
  exists rest,
    Claude.appendProfileToSystem nts (VString base) profile
    = Normal (VString (base ++ rest))
    /\ (Z.of_nat (length rest) <= 4418)%Z.
Proof.
  unfold Claude.appendProfileToSystem.
  destruct (negb (truthy profile) || negb (jseqb (typeof profile) (lit "object"))).
  - exists []. rewrite app_nil_r. split; [reflexivity | cbn; lia].
  - exists (nl ++ Claude.block_head ++ Claude.safeJSONString nts profile 4000
               ++ Claude.block_tail).
    split; [reflexivity |].
    rewrite !length_app.
    change (length nl) with 1%nat.
    replace (length Claude.block_head) with 96%nat by (vm_compute; reflexivity).
    replace (length Claude.block_tail) with 321%nat by (vm_compute; reflexivity).
    pose proof (safeJSONString_length profile). lia.
Qed.

End ComposerShape.

Lemma long_profile_serialization :
  JSON_stringify Number_toString_exact long_profile = Normal (Some long_profile_text).
Proof. vm_compute. reflexivity. Qed.

(** The hypotheses of X19 hold of the profile of one long property. *)
Lemma small_object_witness :
  Claude.safeJSONString Number_toString_exact long_profile 4000
  = slice long_profile_text 0 3997 ++ lit "...".
Proof.
  unfold long_profile.
  rewrite (small_object_is_cut_not_reduced Number_toString_exact
             [ field "goal" (VString (repeat 120%N 5000)) ] long_profile_text).
  - replace (Z.of_nat (length long_profile_text) <=? 4000)%Z with false
      by (vm_compute; reflexivity).
    reflexivity.
  - repeat constructor. intros [].
  - cbn. lia.
  - intros [H | []]. vm_compute in H. discriminate.
  - exact long_profile_serialization.
Defined.
